(** * Wallet authentication gate

    A shallow embedding of the two [WalletAuthController] classes of the
    repository: the controller with session persistence
    (wallet-auth-system/wallet-auth.js, module [Persistent] below) and the
    older copy without it (module [Legacy]).  The browser is an explicit
    [world]: local storage, the named DOM regions, the injected wallet
    providers, the dispatched window events, the pending timers and the
    system clock.  An asynchronous method runs to completion as one step, a
    provider being seen through the outcomes of its calls.  Console logging,
    listener registration and the wallet detection that only logs change
    none of these and are left out. *)

From Stdlib Require Import ZArith QArith Qminmax Qround Ascii String List Sorted Lia.
From stdpp Require Import base gmap strings list pretty.

Set Warnings "-register-all".
Local Open Scope Z_scope.
Local Open Scope string_scope.

(** ** JavaScript values *)

(** Numbers that reach the controller are whole milliseconds, or NaN when a
    missing field is coerced.  On whole numbers a double subtraction followed
    by a comparison with a whole constant agrees with the exact one. *)
Inductive jsnum :=
| NaN
| Num (z : Z).

(** The values [JSON.parse] can return, and [undefined] for a missing
    property. *)
Inductive jsval :=
| JUndefined
| JNull
| JBool (b : bool)
| JNum (n : jsnum)
| JStr (s : string)
| JArr (items : list jsval)
| JObj (fields : list (string * jsval)).

(** Own properties of a parsed object, first binding of a key. *)
Fixpoint own_prop (fields : list (string * jsval)) (k : string) : jsval :=
  match fields with
  | [] => JUndefined
  | (k', v) :: rest => if String.eqb k' k then v else own_prop rest k
  end.

(** [v.k] for the two keys the controller reads, [timestamp] and
    [walletType], which no prototype defines: [None] is the TypeError raised
    on [null] and [undefined]. *)
Definition get_prop (v : jsval) (k : string) : option jsval :=
  match v with
  | JUndefined | JNull => None
  | JObj fields => Some (own_prop fields k)
  | JBool _ | JNum _ | JStr _ | JArr _ => Some JUndefined
  end.

(** [haystack.includes(needle)] *)
Fixpoint includes (haystack needle : string) : bool :=
  if String.prefix needle haystack then true
  else match haystack with
       | EmptyString => false
       | String _ rest => includes rest needle
       end.

(** ** Thrown values *)

(** What a provider call can throw or reject with, seen through the two
    properties the handlers read: its [code] when that is a whole number and
    its [message] when that is a string.  [Nullish] is a thrown [null] or
    [undefined]. *)
Inductive thrown :=
| Nullish
| Thrown (code : option Z) (message : option string).

(** [new Error(message)] *)
Definition Error (message : string) : thrown := Thrown None (Some message).

(** What an adapter rejects with: an [Error] it built itself, or the
    TypeError the engine raises when its handler reads a property of
    [undefined] or [null]. *)
Inductive failure :=
| Failure (message : string)
| TypeError.

(** Outcome of awaiting a promise; [Pending] is one that never settles. *)
Inductive settled (E A : Type) :=
| Fulfilled (a : A)
| Rejected (e : E)
| Pending.
Arguments Fulfilled {E A} a.
Arguments Rejected {E A} e.
Arguments Pending {E A}.

(** ** Wallet providers *)

(** A value found in a [publicKey] property: a string, or a key object.  The
    text a key object's [toString()] returns (a base-58 key, or the default
    "[object Object]") has a first character. *)
Inductive pubkey :=
| KeyStr (s : string)
| KeyObj (first : Ascii.ascii) (rest : string).

Definition key_toString (k : pubkey) : string :=
  match k with
  | KeyStr s => s
  | KeyObj first rest => String first rest
  end.

(** Every object is truthy; a string is unless it is empty. *)
Definition key_truthy (k : pubkey) : bool :=
  match k with
  | KeyStr s => negb (String.eqb s "")
  | KeyObj _ _ => true
  end.

(** [o && o.publicKey] where [o.publicKey] may be missing *)
Definition truthy_key (k : option pubkey) : option pubkey :=
  match k with
  | Some k => if key_truthy k then Some k else None
  | None => None
  end.

(** What a Solana-style [connect()] resolves to: a falsy value ([None]) or an
    object with an optional [publicKey]. *)
Definition response := option (option pubkey).

Definition response_key (r : response) : option pubkey :=
  match r with
  | Some k => truthy_key k
  | None => None
  end.

(** [window.solana] *)
Record solana_provider := {
  isPhantom : bool;
  solana_isConnected : bool;
  solana_connect_trusted : settled thrown response;   (* connect({ onlyIfTrusted: true }) *)
  solana_connect : settled thrown response            (* connect() *)
}.

(** [window.ethereum]; an account list is falsy ([None]) or an array. *)
Record ethereum_provider := {
  isMetaMask : bool;
  selectedAddress : option string;
  eth_accounts : settled thrown (option (list string));          (* request({ method: 'eth_accounts' }) *)
  eth_requestAccounts : settled thrown (option (list string))    (* request({ method: 'eth_requestAccounts' }) *)
}.

(** [window.solflare]; [sf_publicKey] and [sf_wallet] are the properties as
    the controller reads them. *)
Record solflare_provider := {
  sf_isConnected : bool;
  sf_disconnect : settled thrown unit;
  sf_connect : settled thrown response;
  sf_publicKey : option pubkey;
  sf_wallet : option (option pubkey)    (* wallet, and wallet.publicKey *)
}.

Record window := {
  solana : option solana_provider;
  ethereum : option ethereum_provider;
  solflare : option solflare_provider
}.

(** ** Connection results and events *)

Record wallet := {
  type : string;
  publicKey : string;
  address : string
}.

Inductive event :=
| walletConnected (detail : wallet)
| walletDisconnected.

(** The three wallet choices of the selection screen. *)
Inductive wallet_kind := phantom | solflare_kind | metamask.

Definition kind_name (k : wallet_kind) : string :=
  match k with
  | phantom => "phantom"
  | solflare_kind => "solflare"
  | metamask => "metamask"
  end.

(** ** The page *)

(** A screen region: [style.display] and [classList]. *)
Record region := {
  display : string;
  classList : gset string
}.

(** A wallet card with its two labels and the style properties the
    controller writes. *)
Record card := {
  walletName : string;        (* .wallet-name textContent *)
  connectText : string;       (* .connect-text textContent *)
  disabled : bool;
  pointerEvents : string;
  opacity : string;
  background : string;
  borderColor : string;
  boxShadow : string
}.

(** The elements the controller looks up, absent when the page lacks them.
    [progressBar] holds the percentage of its [style.width],
    [loadingPercentage] the whole percent of its text; cards are keyed by
    their [data-wallet] attribute. *)
Record document := {
  loadingScreen : option region;
  authScreen : option region;
  mainContent : option region;
  progressBar : option Q;
  loadingPercentage : option Z;
  cards : gmap string card
}.

(** Callbacks handed to [setTimeout]. *)
Inductive callback :=
| cb_updateProgress (startTime : Z)
| cb_transitionToAuth
| cb_showAuthScreen
| cb_transitionToMainContent
| cb_showMainContent
| cb_resetCard (walletType originalName originalConnect : string).

(** Built-ins of the engine that the controller calls and this development
    does not define: [JSON.parse] ([None] when it throws), [JSON.stringify],
    the number a string, array or object coerces to, and the rounding of an
    exact quotient or product to a double. *)
Record host := {
  JSON_parse : string -> option jsval;
  JSON_stringify : jsval -> string;
  ToNumber_object : jsval -> jsnum;
  round : Q -> Q
}.

(** The browser together with the controller's own fields.  [clock] lists
    the successive results of [Date.now()], [reads] counts the calls made. *)
Record world := {
  engine : host;
  localStorage : gmap string string;
  doc : document;
  win : window;
  events : list event;
  timers : list (Z * callback);
  clock : nat -> Z;
  reads : nat;
  isAuthenticated : bool;
  connectedWallet : option wallet;
  loadingDuration : Q
}.

(** ** Field updates *)

Definition set_localStorage (f : gmap string string -> gmap string string) (w : world) : world :=
  {| engine := engine w; localStorage := f (localStorage w); doc := doc w; win := win w;
     events := events w; timers := timers w; clock := clock w; reads := reads w;
     isAuthenticated := isAuthenticated w; connectedWallet := connectedWallet w;
     loadingDuration := loadingDuration w |}.

Definition set_doc (f : document -> document) (w : world) : world :=
  {| engine := engine w; localStorage := localStorage w; doc := f (doc w); win := win w;
     events := events w; timers := timers w; clock := clock w; reads := reads w;
     isAuthenticated := isAuthenticated w; connectedWallet := connectedWallet w;
     loadingDuration := loadingDuration w |}.

Definition set_events (f : list event -> list event) (w : world) : world :=
  {| engine := engine w; localStorage := localStorage w; doc := doc w; win := win w;
     events := f (events w); timers := timers w; clock := clock w; reads := reads w;
     isAuthenticated := isAuthenticated w; connectedWallet := connectedWallet w;
     loadingDuration := loadingDuration w |}.

Definition set_timers (f : list (Z * callback) -> list (Z * callback)) (w : world) : world :=
  {| engine := engine w; localStorage := localStorage w; doc := doc w; win := win w;
     events := events w; timers := f (timers w); clock := clock w; reads := reads w;
     isAuthenticated := isAuthenticated w; connectedWallet := connectedWallet w;
     loadingDuration := loadingDuration w |}.

Definition set_reads (n : nat) (w : world) : world :=
  {| engine := engine w; localStorage := localStorage w; doc := doc w; win := win w;
     events := events w; timers := timers w; clock := clock w; reads := n;
     isAuthenticated := isAuthenticated w; connectedWallet := connectedWallet w;
     loadingDuration := loadingDuration w |}.

(** [this.isAuthenticated = a; this.connectedWallet = c] *)
Definition set_session (a : bool) (c : option wallet) (w : world) : world :=
  {| engine := engine w; localStorage := localStorage w; doc := doc w; win := win w;
     events := events w; timers := timers w; clock := clock w; reads := reads w;
     isAuthenticated := a; connectedWallet := c;
     loadingDuration := loadingDuration w |}.

Definition set_loadingDuration (d : Q) (w : world) : world :=
  {| engine := engine w; localStorage := localStorage w; doc := doc w; win := win w;
     events := events w; timers := timers w; clock := clock w; reads := reads w;
     isAuthenticated := isAuthenticated w; connectedWallet := connectedWallet w;
     loadingDuration := d |}.

Definition set_loadingScreen (f : region -> region) (d : document) : document :=
  {| loadingScreen := f <$> loadingScreen d; authScreen := authScreen d;
     mainContent := mainContent d; progressBar := progressBar d;
     loadingPercentage := loadingPercentage d; cards := cards d |}.

Definition set_authScreen (f : region -> region) (d : document) : document :=
  {| loadingScreen := loadingScreen d; authScreen := f <$> authScreen d;
     mainContent := mainContent d; progressBar := progressBar d;
     loadingPercentage := loadingPercentage d; cards := cards d |}.

Definition set_mainContent (f : region -> region) (d : document) : document :=
  {| loadingScreen := loadingScreen d; authScreen := authScreen d;
     mainContent := f <$> mainContent d; progressBar := progressBar d;
     loadingPercentage := loadingPercentage d; cards := cards d |}.

(** [progressBar.style.width = `${p}%`; percentageDisplay.textContent = `${t}%`] *)
Definition set_progress (p : Q) (t : Z) (d : document) : document :=
  {| loadingScreen := loadingScreen d; authScreen := authScreen d;
     mainContent := mainContent d; progressBar := (fun _ => p) <$> progressBar d;
     loadingPercentage := (fun _ => t) <$> loadingPercentage d; cards := cards d |}.

Definition set_card (walletType : string) (f : card -> card) (d : document) : document :=
  {| loadingScreen := loadingScreen d; authScreen := authScreen d;
     mainContent := mainContent d; progressBar := progressBar d;
     loadingPercentage := loadingPercentage d; cards := alter f walletType (cards d) |}.

(** [el.style.display = v] *)
Definition style_display (v : string) (r : region) : region :=
  {| display := v; classList := classList r |}.

(** [el.classList.add(c)] *)
Definition classList_add (c : string) (r : region) : region :=
  {| display := display r; classList := {[ c ]} ∪ classList r |}.

(** [el.classList.remove(c)] *)
Definition classList_remove (c : string) (r : region) : region :=
  {| display := display r; classList := classList r ∖ {[ c ]} |}.

(** ** Browser services *)

(** The storage key of the session record. *)
Definition micro_wallet_connection : string := "micro_wallet_connection".

(** [Date.now()] *)
Definition Date_now (w : world) : Z * world :=
  (clock w (reads w), set_reads (S (reads w)) w).

(** [setTimeout(cb, delay)] *)
Definition setTimeout (cb : callback) (delay : Z) (w : world) : world :=
  set_timers (fun ts => (ts ++ [(delay, cb)])%list) w.

(** [window.dispatchEvent(new CustomEvent(...))] *)
Definition dispatchEvent (e : event) (w : world) : world :=
  set_events (fun es => (es ++ [e])%list) w.

(** ** Number coercion and comparison *)

Definition ToNumber (h : host) (v : jsval) : jsnum :=
  match v with
  | JUndefined => NaN
  | JNull => Num 0
  | JBool b => Num (if b then 1 else 0)
  | JNum n => n
  | JStr _ | JArr _ | JObj _ => ToNumber_object h v
  end.

Definition js_sub (a b : jsnum) : jsnum :=
  match a, b with
  | Num x, Num y => Num (x - y)
  | _, _ => NaN
  end.

(** [a > b]: false as soon as a side is NaN *)
Definition js_gt (a b : jsnum) : bool :=
  match a, b with
  | Num x, Num y => x >? y
  | _, _ => false
  end.

(** ** The loading sequence (the same text in both controllers) *)

(** [Math.min((elapsed / this.loadingDuration) * 100, 100)] *)
Definition progress_at (h : host) (duration : Q) (elapsed : Z) : Q :=
  Qmin (round h (round h (inject_Z elapsed / duration) * 100)) 100.

Definition updateProgress (startTime : Z) (w : world) : world :=
  let '(now, w) := Date_now w in
  let elapsed := now - startTime in
  let progress := progress_at (engine w) (loadingDuration w) elapsed in
  let w := set_doc (set_progress progress (Qfloor progress)) w in
  match progress ?= 100 with
  | Lt => setTimeout (cb_updateProgress startTime) 50 w
  | _ => setTimeout cb_transitionToAuth 500 w
  end%Q.

Definition startLoadingSequence (w : world) : world :=
  match progressBar (doc w), loadingPercentage (doc w),
        loadingScreen (doc w), authScreen (doc w) with
  | Some _, Some _, Some _, Some _ =>
      let '(startTime, w) := Date_now w in
      updateProgress startTime w
  | _, _, _, _ => w
  end.

(** ** Interactive adapters (the same text in both controllers) *)

(** [error.code === n] *)
Definition code_is (n : Z) (code : option Z) : bool :=
  match code with
  | Some c => Z.eqb c n
  | None => false
  end.

(** [`${error.message}`] *)
Definition message_text (message : option string) : string :=
  match message with
  | Some m => m
  | None => "undefined"
  end.

(** [try { body } catch (error) { throw handler(error) }] *)
Definition try_catch {A : Type} (body : settled thrown A) (handler : thrown -> failure)
  : settled failure A :=
  match body with
  | Fulfilled a => Fulfilled a
  | Rejected error => Rejected (handler error)
  | Pending => Pending
  end.

(** The handler shared by [connectPhantom] ([needle] is ['User rejected'])
    and [connectSolflare] ([needle] is ['rejected']). *)
Definition catch_solana (needle : string) (error : thrown) : failure :=
  match error with
  | Nullish => TypeError
  | Thrown code message =>
      if code_is 4001 code then Failure "Connection rejected by user"
      else match message with
           | None => TypeError
           | Some m =>
               if includes m needle then Failure "Connection rejected by user"
               else Failure ("Connection failed: " ++ m)
           end
  end.

Definition catch_metamask (error : thrown) : failure :=
  match error with
  | Nullish => TypeError
  | Thrown code message =>
      if code_is 4001 code then Failure "Connection rejected by user"
      else if code_is (-32002) code then Failure "Connection request already pending"
      else Failure ("Connection failed: " ++ message_text message)
  end.

Definition connectPhantom (win : window) : settled failure wallet :=
  try_catch
    match solana win with
    | Some provider =>
        if isPhantom provider then
          match solana_connect provider with
          | Fulfilled response =>
              match response_key response with
              | Some key =>
                  Fulfilled {| type := "phantom";
                               publicKey := key_toString key;
                               address := key_toString key |}
              | None => Rejected (Error "Failed to get public key from Phantom")
              end
          | Rejected error => Rejected error
          | Pending => Pending
          end
        else Rejected (Error "Phantom wallet not detected. Please ensure it is installed and enabled.")
    | None => Rejected (Error "Phantom wallet not detected. Please ensure it is installed and enabled.")
    end
    (catch_solana "User rejected").

(** The three places [connectSolflare] looks for the key, in order. *)
Definition solflare_key (response : response) (provider : solflare_provider) : option pubkey :=
  match response_key response with
  | Some key => Some key
  | None =>
      match truthy_key (sf_publicKey provider) with
      | Some key => Some key
      | None =>
          match sf_wallet provider with
          | Some key => truthy_key key
          | None => None
          end
      end
  end.

Definition connectSolflare (win : window) : settled failure wallet :=
  try_catch
    match solflare win with
    | None => Rejected (Error "Solflare wallet not detected. Please ensure it is installed and enabled.")
    | Some provider =>
        (* a failed disconnect is logged and ignored *)
        let disconnected : settled thrown unit :=
          if sf_isConnected provider then
            match sf_disconnect provider with
            | Pending => Pending
            | _ => Fulfilled tt
            end
          else Fulfilled tt in
        match disconnected with
        | Pending => Pending
        | _ =>
            match sf_connect provider with
            | Fulfilled response =>
                match solflare_key response provider with
                | Some key =>
                    Fulfilled {| type := "solflare";
                                 publicKey := key_toString key;
                                 address := key_toString key |}
                | None => Rejected (Error "Failed to get public key from Solflare")
                end
            | Rejected error => Rejected error
            | Pending => Pending
            end
        end
    end
    (catch_solana "rejected").

Definition connectMetaMask (win : window) : settled failure wallet :=
  try_catch
    match ethereum win with
    | Some provider =>
        if isMetaMask provider then
          match eth_requestAccounts provider with
          | Fulfilled (Some (account :: _)) =>
              Fulfilled {| type := "metamask"; publicKey := account; address := account |}
          | Fulfilled _ => Rejected (Error "No accounts found")
          | Rejected error => Rejected error
          | Pending => Pending
          end
        else Rejected (Error "MetaMask wallet not detected. Please ensure it is installed and enabled.")
    | None => Rejected (Error "MetaMask wallet not detected. Please ensure it is installed and enabled.")
    end
    catch_metamask.

(** The [switch] of [connectWallet]. *)
Definition connect (walletType : string) (win : window) : settled failure wallet :=
  if String.eqb walletType "phantom" then connectPhantom win
  else if String.eqb walletType "solflare" then connectSolflare win
  else if String.eqb walletType "metamask" then connectMetaMask win
  else Rejected (Failure "Unsupported wallet type").

(** The failures of the specification's taxonomy, as the [Error]s the
    adapters throw for them. *)
Definition UserRejected : failure := Failure "Connection rejected by user".
Definition RequestAlreadyPending : failure := Failure "Connection request already pending".
Definition ConnectionFailed (message : string) : failure :=
  Failure ("Connection failed: " ++ message).

Definition not_detected (k : wallet_kind) : string :=
  match k with
  | phantom => "Phantom wallet not detected. Please ensure it is installed and enabled."
  | solflare_kind => "Solflare wallet not detected. Please ensure it is installed and enabled."
  | metamask => "MetaMask wallet not detected. Please ensure it is installed and enabled."
  end.

Definition ProviderNotFound (k : wallet_kind) : failure :=
  ConnectionFailed (not_detected k).

(** The provider object a wallet choice talks to is missing from [window]. *)
Definition provider_undefined (k : wallet_kind) (win : window) : Prop :=
  match k with
  | phantom => solana win = None
  | solflare_kind => solflare win = None
  | metamask => ethereum win = None
  end.

(** ** Wallet cards *)

Definition card_busy (c : card) : card :=
  {| walletName := "CONNECTING..."; connectText := "WAIT..."; disabled := true;
     pointerEvents := "none"; opacity := "0.7";
     background := background c; borderColor := borderColor c; boxShadow := boxShadow c |}.

Definition card_success (bg border shadow : string) (c : card) : card :=
  {| walletName := "CONNECTED"; connectText := "SUCCESS"; disabled := disabled c;
     pointerEvents := pointerEvents c; opacity := opacity c;
     background := bg; borderColor := border; boxShadow := shadow |}.

Definition card_error (c : card) : card :=
  {| walletName := "CONNECTION FAILED"; connectText := "ERROR"; disabled := disabled c;
     pointerEvents := pointerEvents c; opacity := opacity c;
     background := "linear-gradient(135deg, rgba(255, 0, 64, 0.2), rgba(255, 0, 64, 0.1))";
     borderColor := "#ff0040"; boxShadow := boxShadow c |}.

Definition card_reset (originalName originalConnect : string) (c : card) : card :=
  {| walletName := originalName; connectText := originalConnect; disabled := false;
     pointerEvents := ""; opacity := ""; background := ""; borderColor := ""; boxShadow := "" |}.

(** ** Observations *)

Definition is_loading_timer (t : Z * callback) : bool :=
  match snd t with
  | cb_updateProgress _ | cb_transitionToAuth => true
  | _ => false
  end.

(** The loading sequence is running: its next step is scheduled. *)
Definition loading (w : world) : bool := existsb is_loading_timer (timers w).

(** The session record is in persistent storage. *)
Definition stored_record (w : world) : option string :=
  localStorage w !! micro_wallet_connection.

(** ** The controller with session persistence
    (wallet-auth-system/wallet-auth.js) *)

Module Persistent.

(** [this.loadingDuration = options.loadingDuration || 2000], with the
    other fields of the constructor. *)
Definition construct (options_loadingDuration : option Q) (w : world) : world :=
  let duration :=
    match options_loadingDuration with
    | Some d => if Qeq_bool d 0 then 2000%Q else d
    | None => 2000%Q
    end in
  set_loadingDuration duration (set_session false None w).

Definition verified (kind : string) (key : string) (w : world) : settled failure bool * world :=
  (Fulfilled true,
   set_session true (Some {| type := kind; publicKey := key; address := key |}) w).

Definition verifyWalletConnection (walletType : jsval) (w : world)
  : settled failure bool * world :=
  match walletType with
  | JStr name =>
      if String.eqb name "phantom" then
        match solana (win w) with
        | Some provider =>
            if isPhantom provider then
              match solana_connect_trusted provider with
              | Fulfilled response =>
                  match response_key response with
                  | Some key => verified "phantom" (key_toString key) w
                  | None => (Fulfilled false, w)
                  end
              | Rejected _ => (Fulfilled false, w)
              | Pending => (Pending, w)
              end
            else (Fulfilled false, w)
        | None => (Fulfilled false, w)
        end
      else if String.eqb name "metamask" then
        match ethereum (win w) with
        | Some provider =>
            if isMetaMask provider then
              match eth_accounts provider with
              | Fulfilled (Some (account :: _)) => verified "metamask" account w
              | Fulfilled _ => (Fulfilled false, w)
              | Rejected _ => (Fulfilled false, w)
              | Pending => (Pending, w)
              end
            else (Fulfilled false, w)
        | None => (Fulfilled false, w)
        end
      else if String.eqb name "solflare" then
        match solflare (win w) with
        | Some provider =>
            if sf_isConnected provider then
              match truthy_key (sf_publicKey provider) with
              | Some key => verified "solflare" (key_toString key) w
              | None => (Fulfilled false, w)
              end
            else (Fulfilled false, w)
        | None => (Fulfilled false, w)
        end
      else (Fulfilled false, w)
  | _ => (Fulfilled false, w)
  end.

(** [localStorage.removeItem('micro_wallet_connection')] *)
Definition removeItem (w : world) : world :=
  set_localStorage (delete micro_wallet_connection) w.

(** The [catch] clause of [checkExistingConnection]. *)
Definition discard (w : world) : settled failure bool * world :=
  (Fulfilled false, removeItem w).

Definition checkExistingConnection (w : world) : settled failure bool * world :=
  match localStorage w !! micro_wallet_connection with
  | None => (Fulfilled false, w)
  | Some storedConnection =>
      if String.eqb storedConnection "" then (Fulfilled false, w)
      else
        match JSON_parse (engine w) storedConnection with
        | None => discard w
        | Some connectionData =>
            let '(now, w) := Date_now w in
            match get_prop connectionData "timestamp" with
            | None => discard w
            | Some timestamp =>
                if js_gt (js_sub (Num now) (ToNumber (engine w) timestamp))
                         (Num (24 * 60 * 60 * 1000))
                then (Fulfilled false, removeItem w)
                else
                  match get_prop connectionData "walletType" with
                  | None => discard w
                  | Some walletType =>
                      match verifyWalletConnection walletType w with
                      | (Rejected _, w) => discard w
                      | result => result
                      end
                  end
            end
        end
  end.

Definition skipToMainContent (w : world) : world :=
  match loadingScreen (doc w), authScreen (doc w), mainContent (doc w) with
  | Some _, Some _, Some _ =>
      let w := set_doc (set_loadingScreen (style_display "none")) w in
      let w := set_doc (set_loadingScreen (classList_remove "fade-out")) w in
      let w := set_doc (set_authScreen (style_display "none")) w in
      let w := set_doc (set_authScreen (classList_add "hidden")) w in
      let w := set_doc (set_mainContent (style_display "")) w in
      let w := set_doc (set_mainContent (classList_remove "hidden")) w in
      match connectedWallet w with
      | Some detail => dispatchEvent (walletConnected detail) w
      | None => w
      end
  | _, _, _ => w
  end.

(** [init] up to its last two calls, [setupWalletButtons] and
    [setupWalletDetection]: the click listeners are the [Click] steps below,
    and the timers of the wallet detection, which only log, are not recorded
    in [timers].  The [await] is one step with what follows it: no other
    call runs between the silent check and its continuation.  When the
    silent check never settles, nothing after the [await] runs. *)
Definition init (w : world) : world :=
  match checkExistingConnection w with
  | (Fulfilled true, w) => skipToMainContent w
  | (Fulfilled false, w) => startLoadingSequence w
  | (_, w) => w
  end.

Definition transitionToAuth (w : world) : world :=
  match loadingScreen (doc w), authScreen (doc w) with
  | Some _, Some _ =>
      let w := set_doc (set_loadingScreen (classList_add "fade-out")) w in
      setTimeout cb_showAuthScreen 1000 w
  | _, _ => w
  end.

(** The callback [transitionToAuth] schedules. *)
Definition showAuthScreen (w : world) : world :=
  let w := set_doc (set_loadingScreen (style_display "none")) w in
  let w := set_doc (set_authScreen (style_display "flex")) w in
  set_doc (set_authScreen (classList_remove "hidden")) w.

(** The object literal [storeWalletConnection] serialises. *)
Definition connectionData (wallet : wallet) (now : Z) : jsval :=
  JObj [("walletType", JStr (type wallet));
        ("timestamp", JNum (Num now));
        ("publicKey", JStr (publicKey wallet));
        ("address", JStr (address wallet))].

(** The [try] block of [storeWalletConnection].  Local storage is taken to
    accept the write; when [setItem] throws, the source logs the error and
    goes on without a stored record. *)
Definition storeWalletConnection (wallet : wallet) (w : world) : world :=
  let '(now, w) := Date_now w in
  set_localStorage
    (insert micro_wallet_connection
            (JSON_stringify (engine w) (connectionData wallet now))) w.

Definition clearStoredConnection (w : world) : world := removeItem w.

Definition connectWallet (walletType : string) (w : world) : world :=
  match cards (doc w) !! walletType with
  | None => w
  | Some button =>
      let originalName := walletName button in
      let originalConnect := connectText button in
      let w := set_doc (set_card walletType card_busy) w in
      match connect walletType (win w) with
      | Fulfilled wallet =>
          let w := set_session true (Some wallet) w in
          let w := storeWalletConnection wallet w in
          let w := set_doc (set_card walletType
                     (card_success
                        "linear-gradient(135deg, rgba(0, 136, 254, 0.3), rgba(0, 136, 254, 0.1))"
                        "#0088fe" "0 0 20px rgba(0, 136, 254, 0.6)")) w in
          let w := dispatchEvent (walletConnected wallet) w in
          setTimeout cb_transitionToMainContent 1500 w
      | Rejected _ =>
          let w := set_doc (set_card walletType card_error) w in
          setTimeout (cb_resetCard walletType originalName originalConnect) 3000 w
      | Pending => w
      end
  end.

Definition transitionToMainContent (w : world) : world :=
  match authScreen (doc w), mainContent (doc w) with
  | Some _, Some _ =>
      let w := set_doc (set_authScreen (classList_add "fade-out")) w in
      setTimeout cb_showMainContent 1000 w
  | _, _ => w
  end.

(** The callback [transitionToMainContent] schedules. *)
Definition showMainContent (w : world) : world :=
  let w := set_doc (set_authScreen (style_display "none")) w in
  let w := set_doc (set_authScreen (classList_add "hidden")) w in
  let w := set_doc (set_mainContent (style_display "")) w in
  set_doc (set_mainContent (classList_remove "hidden")) w.

Definition forceReauth (w : world) : world :=
  let w := set_session false None w in
  let w := clearStoredConnection w in
  let w := dispatchEvent walletDisconnected w in
  match loadingScreen (doc w), authScreen (doc w), mainContent (doc w) with
  | Some _, Some _, Some _ =>
      let w := set_doc (set_mainContent (classList_add "hidden")) w in
      let w := set_doc (set_mainContent (style_display "none")) w in
      let w := set_doc (set_authScreen (classList_add "hidden")) w in
      let w := set_doc (set_authScreen (style_display "none")) w in
      let w := set_doc (set_loadingScreen (style_display "flex")) w in
      let w := set_doc (set_loadingScreen (classList_remove "fade-out")) w in
      let w :=
        match progressBar (doc w), loadingPercentage (doc w) with
        | Some _, Some _ => set_doc (set_progress 0 0) w
        | _, _ => w
        end in
      startLoadingSequence w
  | _, _, _ => w
  end.

(** A timer fires. *)
Definition fire (cb : callback) (w : world) : world :=
  match cb with
  | cb_updateProgress startTime => updateProgress startTime w
  | cb_transitionToAuth => transitionToAuth w
  | cb_showAuthScreen => showAuthScreen w
  | cb_transitionToMainContent => transitionToMainContent w
  | cb_showMainContent => showMainContent w
  | cb_resetCard walletType originalName originalConnect =>
      set_doc (set_card walletType (card_reset originalName originalConnect)) w
  end.

End Persistent.

(** ** The controller without session persistence (the older copy) *)

Module Legacy.

(** [this.loadingDuration = options.loadingDuration || 10000] *)
Definition construct (options_loadingDuration : option Q) (w : world) : world :=
  let duration :=
    match options_loadingDuration with
    | Some d => if Qeq_bool d 0 then 10000%Q else d
    | None => 10000%Q
    end in
  set_loadingDuration duration (set_session false None w).

Definition init (w : world) : world := startLoadingSequence w.

Definition transitionToAuth (w : world) : world :=
  match loadingScreen (doc w), authScreen (doc w) with
  | Some _, Some _ =>
      let w := set_doc (set_loadingScreen (classList_add "fade-out")) w in
      setTimeout cb_showAuthScreen 1000 w
  | _, _ => w
  end.

Definition showAuthScreen (w : world) : world :=
  let w := set_doc (set_loadingScreen (style_display "none")) w in
  set_doc (set_authScreen (classList_remove "hidden")) w.

Definition connectWallet (walletType : string) (w : world) : world :=
  match cards (doc w) !! walletType with
  | None => w
  | Some button =>
      let originalName := walletName button in
      let originalConnect := connectText button in
      let w := set_doc (set_card walletType card_busy) w in
      match connect walletType (win w) with
      | Fulfilled wallet =>
          let w := set_session true (Some wallet) w in
          let w := set_doc (set_card walletType
                     (card_success
                        "linear-gradient(135deg, rgba(255, 68, 68, 0.3), rgba(255, 68, 68, 0.1))"
                        "#ff4444" "0 0 20px rgba(255, 68, 68, 0.6)")) w in
          let w := dispatchEvent (walletConnected wallet) w in
          setTimeout cb_transitionToMainContent 1500 w
      | Rejected _ =>
          let w := set_doc (set_card walletType card_error) w in
          setTimeout (cb_resetCard walletType originalName originalConnect) 3000 w
      | Pending => w
      end
  end.

Definition transitionToMainContent (w : world) : world :=
  match authScreen (doc w), mainContent (doc w) with
  | Some _, Some _ =>
      let w := set_doc (set_authScreen (classList_add "fade-out")) w in
      setTimeout cb_showMainContent 1000 w
  | _, _ => w
  end.

Definition showMainContent (w : world) : world :=
  let w := set_doc (set_authScreen (style_display "none")) w in
  set_doc (set_mainContent (classList_remove "hidden")) w.

Definition forceReauth (w : world) : world :=
  let w := set_session false None w in
  match loadingScreen (doc w), authScreen (doc w), mainContent (doc w) with
  | Some _, Some _, Some _ =>
      let w := set_doc (set_mainContent (classList_add "hidden")) w in
      let w := set_doc (set_authScreen (classList_add "hidden")) w in
      let w := set_doc (set_loadingScreen (style_display "flex")) w in
      let w := set_doc (set_loadingScreen (classList_remove "fade-out")) w in
      startLoadingSequence w
  | _, _, _ => w
  end.

Definition fire (cb : callback) (w : world) : world :=
  match cb with
  | cb_updateProgress startTime => updateProgress startTime w
  | cb_transitionToAuth => transitionToAuth w
  | cb_showAuthScreen => showAuthScreen w
  | cb_transitionToMainContent => transitionToMainContent w
  | cb_showMainContent => showMainContent w
  | cb_resetCard walletType originalName originalConnect =>
      set_doc (set_card walletType (card_reset originalName originalConnect)) w
  end.

End Legacy.

(** ** Vocabulary of the properties *)

(** The four elements [startLoadingSequence] requires, and [mainContent]. *)
Definition loading_elements (d : document) : Prop :=
  is_Some (progressBar d) /\ is_Some (loadingPercentage d) /\
  is_Some (loadingScreen d) /\ is_Some (authScreen d).

Definition screens (d : document) : Prop :=
  is_Some (loadingScreen d) /\ is_Some (authScreen d) /\ is_Some (mainContent d).

(** The property holds a key whose text is not empty. *)
Definition nonempty_key (k : option pubkey) : Prop :=
  exists key, k = Some key /\ key_toString key <> "".

(** [window.solflare.wallet && window.solflare.wallet.publicKey] *)
Definition sf_wallet_publicKey (p : solflare_provider) : option pubkey :=
  match sf_wallet p with
  | Some key => key
  | None => None
  end.

(** The provider of a wallet choice is there, identifies itself where the
    adapter asks it to, and its interactive connect operation throws
    [error]. *)
Definition connect_throws (k : wallet_kind) (win : window) (error : thrown) : Prop :=
  match k with
  | phantom =>
      exists p, solana win = Some p /\ isPhantom p = true /\
                solana_connect p = Rejected error
  | solflare_kind =>
      exists p, solflare win = Some p /\
                (sf_isConnected p = true -> sf_disconnect p <> Pending) /\
                sf_connect p = Rejected error
  | metamask =>
      exists p, ethereum win = Some p /\ isMetaMask p = true /\
                eth_requestAccounts p = Rejected error
  end.

(** Silent verification of a stored wallet type cannot succeed: the provider
    is absent (or, where the check asks, does not identify itself or is not
    connected), its call rejects, or it reports no key or account. *)
Definition silent_failure (k : wallet_kind) (win : window) : Prop :=
  match k with
  | phantom =>
      match solana win with
      | None => True
      | Some p =>
          isPhantom p = false \/
          (exists error, solana_connect_trusted p = Rejected error) \/
          (exists r, solana_connect_trusted p = Fulfilled r /\ response_key r = None)
      end
  | metamask =>
      match ethereum win with
      | None => True
      | Some p =>
          isMetaMask p = false \/
          (exists error, eth_accounts p = Rejected error) \/
          eth_accounts p = Fulfilled None \/ eth_accounts p = Fulfilled (Some [])
      end
  | solflare_kind =>
      match solflare win with
      | None => True
      | Some p => sf_isConnected p = false \/ truthy_key (sf_publicKey p) = None
      end
  end.

(** A connection result: what an interactive adapter resolves to, or what
    silent verification leaves in [connectedWallet]. *)
Inductive connection_result (w : world) (result : wallet) : Prop :=
| by_connectPhantom :
    connectPhantom (win w) = Fulfilled result -> connection_result w result
| by_connectSolflare :
    connectSolflare (win w) = Fulfilled result -> connection_result w result
| by_connectMetaMask :
    connectMetaMask (win w) = Fulfilled result -> connection_result w result
| by_verifyWalletConnection (walletType : jsval) (w' : world) :
    Persistent.verifyWalletConnection walletType w = (Fulfilled true, w') ->
    connectedWallet w' = Some result -> connection_result w result.

(** The texts a provider hands over: the key of a [connect()] response, a
    key it exposes as a property, or the first account it lists. *)
Inductive provider_supplied (win : window) : string -> Prop :=
| solana_connect_key p r key :
    solana win = Some p -> solana_connect p = Fulfilled r ->
    response_key r = Some key -> provider_supplied win (key_toString key)
| solana_trusted_key p r key :
    solana win = Some p -> solana_connect_trusted p = Fulfilled r ->
    response_key r = Some key -> provider_supplied win (key_toString key)
| solflare_connect_key p r key :
    solflare win = Some p -> sf_connect p = Fulfilled r ->
    response_key r = Some key -> provider_supplied win (key_toString key)
| solflare_own_key p key :
    solflare win = Some p -> sf_publicKey p = Some key ->
    provider_supplied win (key_toString key)
| solflare_nested_key p key :
    solflare win = Some p -> sf_wallet p = Some (Some key) ->
    provider_supplied win (key_toString key)
| ethereum_requested_account p account rest :
    ethereum win = Some p -> eth_requestAccounts p = Fulfilled (Some (account :: rest)) ->
    provider_supplied win account
| ethereum_permitted_account p account rest :
    ethereum win = Some p -> eth_accounts p = Fulfilled (Some (account :: rest)) ->
    provider_supplied win account.

(** ** A sample page *)

Module Sample.

Definition dq : string := String "034"%char "".

(** A stand-in for [JSON.stringify] on flat records. *)
Definition print_field (f : string * jsval) : string :=
  dq ++ fst f ++ dq ++ ":" ++
  match snd f with
  | JStr s => dq ++ s ++ dq
  | JNum (Num z) => pretty z
  | _ => "null"
  end.

Definition print_flat (v : jsval) : string :=
  match v with
  | JObj fields => "{" ++ String.concat "," (map print_field fields) ++ "}"
  | _ => "null"
  end.

Definition phantom_record : jsval :=
  JObj [("walletType", JStr "phantom"); ("timestamp", JNum (Num 1000));
        ("publicKey", JStr "9xQe"); ("address", JStr "9xQe")].

Definition untimed_record : jsval := JObj [("walletType", JStr "phantom")].

(** A stand-in for [JSON.parse] that knows the texts used below. *)
Definition parse (s : string) : option jsval :=
  if String.eqb s (print_flat phantom_record) then Some phantom_record
  else if String.eqb s (print_flat untimed_record) then Some untimed_record
  else if String.eqb s "null" then Some JNull
  else None.

(** Exact arithmetic in place of doubles. *)
Definition exact : host :=
  {| JSON_parse := parse; JSON_stringify := print_flat;
     ToNumber_object := fun _ => NaN; round := fun q => q |}.

Definition shown : region := {| display := "flex"; classList := ∅ |}.
Definition hidden : region := {| display := ""; classList := {[ "hidden" ]} |}.

Definition idle (name : string) : card :=
  {| walletName := name; connectText := "CONNECT"; disabled := false;
     pointerEvents := ""; opacity := ""; background := ""; borderColor := "";
     boxShadow := "" |}.

Definition page : document :=
  {| loadingScreen := Some shown; authScreen := Some hidden;
     mainContent := Some hidden; progressBar := Some 0%Q;
     loadingPercentage := Some 0;
     cards := <[ "phantom" := idle "PHANTOM" ]>
             (<[ "solflare" := idle "SOLFLARE" ]>
             (<[ "metamask" := idle "METAMASK" ]> ∅)) |}.

Definition no_wallets : window :=
  {| solana := None; ethereum := None; solflare := None |}.

(** Phantom, installed and already trusting the site. *)
Definition trusting_phantom : window :=
  {| solana := Some {| isPhantom := true; solana_isConnected := true;
                       solana_connect_trusted := Fulfilled (Some (Some (KeyObj "9" "xQe")));
                       solana_connect := Fulfilled (Some (Some (KeyObj "9" "xQe"))) |};
     ethereum := None; solflare := None |}.

(** The error of a provider that already has a request open. *)
Definition already_pending : thrown :=
  Thrown (Some (-32002)) (Some "Request already pending").

Definition busy_phantom : window :=
  {| solana := Some {| isPhantom := true; solana_isConnected := false;
                       solana_connect_trusted := Rejected already_pending;
                       solana_connect := Rejected already_pending |};
     ethereum := None; solflare := None |}.

Definition busy_metamask : window :=
  {| solana := None;
     ethereum := Some {| isMetaMask := true; selectedAddress := None;
                         eth_accounts := Fulfilled (Some []);
                         eth_requestAccounts := Rejected already_pending |};
     solflare := None |}.

(** Solflare answering [connect()] with an object that has no key, and
    exposing the key on its nested wallet only. *)
Definition nested_solflare_provider : solflare_provider :=
  {| sf_isConnected := true; sf_disconnect := Rejected Nullish;
     sf_connect := Fulfilled (Some None);
     sf_publicKey := None; sf_wallet := Some (Some (KeyStr "7Gh2")) |}.

Definition nested_solflare : window :=
  {| solana := None; ethereum := None; solflare := Some nested_solflare_provider |}.

(** The browser at a page load at time [now], with [stored] under the
    session key. *)
Definition browser (stored : option string) (win : window) (now : Z) : world :=
  {| engine := exact;
     localStorage := match stored with
                     | Some s => {[ micro_wallet_connection := s ]}
                     | None => ∅
                     end;
     doc := page; win := win; events := []; timers := [];
     clock := fun n => now + Z.of_nat n; reads := 0;
     isAuthenticated := false; connectedWallet := None; loadingDuration := 0 |}.

Definition startup (stored : option string) (win : window) (now : Z) : world :=
  Persistent.construct None (browser stored win now).

Definition legacy_startup (stored : option string) (win : window) (now : Z) : world :=
  Legacy.construct None (browser stored win now).


Definition legacy_signed_in : world :=
  Legacy.connectWallet "phantom"
    (legacy_startup (Some (print_flat phantom_record)) trusting_phantom 5000).

End Sample.

(** ** The controller in use *)

(** The providers of the page change: an extension injects its object, a
    wallet is locked or unlocked. *)
Definition set_win (win' : window) (w : world) : world :=
  {| engine := engine w; localStorage := localStorage w; doc := doc w; win := win';
     events := events w; timers := timers w; clock := clock w; reads := reads w;
     isAuthenticated := isAuthenticated w; connectedWallet := connectedWallet w;
     loadingDuration := loadingDuration w |}.

(** The three tests of [detectWallets], in its order Phantom, MetaMask,
    Solflare; [true] stands for the "detected" line it logs. *)
Definition detectWallets (win : window) : bool * bool * bool :=
  (match solana win with Some provider => isPhantom provider | None => false end,
   match ethereum win with Some provider => isMetaMask provider | None => false end,
   match solflare win with Some _ => true | None => false end).

Definition detected (k : wallet_kind) (win : window) : bool :=
  match k with
  | phantom => fst (fst (detectWallets win))
  | metamask => snd (fst (detectWallets win))
  | solflare_kind => snd (detectWallets win)
  end.

(** What the silent check of a stored wallet type reads from the providers,
    and nothing of their interactive operations. *)
Definition silent_view (win : window)
  : option (bool * settled thrown response) *
    option (bool * settled thrown (option (list string))) *
    option (bool * option pubkey) :=
  ((fun p => (isPhantom p, solana_connect_trusted p)) <$> solana win,
   (fun p => (isMetaMask p, eth_accounts p)) <$> ethereum win,
   (fun p => (sf_isConnected p, sf_publicKey p)) <$> solflare win).

(** The provider of a wallet type answers the silent check with the key or
    account [text]. *)
Definition silently_verified (k : wallet_kind) (win : window) (text : string) : Prop :=
  match k with
  | phantom =>
      exists p r key,
        solana win = Some p /\ isPhantom p = true /\
        solana_connect_trusted p = Fulfilled r /\
        response_key r = Some key /\ key_toString key = text
  | metamask =>
      exists p rest,
        ethereum win = Some p /\ isMetaMask p = true /\
        eth_accounts p = Fulfilled (Some (text :: rest))
  | solflare_kind =>
      exists p key,
        solflare win = Some p /\ sf_isConnected p = true /\
        truthy_key (sf_publicKey p) = Some key /\ key_toString key = text
  end.

(** What happens to a running controller: a click on a wallet card (the
    listener [setupWalletButtons] installs calls [connectWallet] with the
    card's [data-wallet]), a call of [forceReauth], a timer that fires, a
    change of the providers. *)
Inductive action :=
| Click (walletType : string)
| ForceReauth
| Timer (cb : callback)
| Providers (win : window).

Definition persistent_step (a : action) (w : world) : world :=
  match a with
  | Click walletType => Persistent.connectWallet walletType w
  | ForceReauth => Persistent.forceReauth w
  | Timer cb => Persistent.fire cb w
  | Providers win => set_win win w
  end.

Definition legacy_step (a : action) (w : world) : world :=
  match a with
  | Click walletType => Legacy.connectWallet walletType w
  | ForceReauth => Legacy.forceReauth w
  | Timer cb => Legacy.fire cb w
  | Providers win => set_win win w
  end.

Definition run (step : action -> world -> world) (acts : list action) (w : world) : world :=
  fold_left (fun w a => step a w) acts w.

(** A page load, [new WalletAuthController(options)] with [autoInit], and
    what follows. *)
Definition persistent_session (options_loadingDuration : option Q) (browser : world)
  (acts : list action) : world :=
  run persistent_step acts (Persistent.init (Persistent.construct options_loadingDuration browser)).

Definition legacy_session (options_loadingDuration : option Q) (browser : world)
  (acts : list action) : world :=
  run legacy_step acts (Legacy.init (Legacy.construct options_loadingDuration browser)).

(** The session fields agree, and a connected wallet has one string for its
    key and its address. *)
Definition session_consistent (w : world) : Prop :=
  (isAuthenticated w = true <-> is_Some (connectedWallet w)) /\
  (forall wallet, connectedWallet w = Some wallet -> publicKey wallet = address wallet).

Definition event_consistent (e : event) : Prop :=
  match e with
  | walletConnected detail => publicKey detail = address detail
  | walletDisconnected => True
  end.

(** Consistent session fields, and since the page load only consistent
    events. *)
Definition well_formed_since (browser w : world) : Prop :=
  session_consistent w /\
  exists new, events w = (events browser ++ new)%list /\ Forall event_consistent new.

(** How many steps of a loading sequence are scheduled. *)
Definition loading_timers (w : world) : nat :=
  length (List.filter is_loading_timer (timers w)).

(** A step that is neither a click on the card of [walletType] nor the reset
    timer of that card. *)
Definition leaves_card (walletType : string) (a : action) : Prop :=
  match a with
  | Click walletType' => walletType' <> walletType
  | Timer (cb_resetCard walletType' _ _) => walletType' <> walletType
  | _ => True
  end.

(** A stored wallet type that is none of the three names. *)
Definition unknown_walletType (v : jsval) : Prop :=
  forall k, v <> JStr (kind_name k).

(** The failures an interactive attempt can end with. *)
Inductive attempt_failure : failure -> Prop :=
| failure_rejected : attempt_failure UserRejected
| failure_pending : attempt_failure RequestAlreadyPending
| failure_connection message : attempt_failure (ConnectionFailed message)
| failure_type_error : attempt_failure TypeError
| failure_unsupported : attempt_failure (Failure "Unsupported wallet type").

(** A region is there and carries, or does not carry, a class. *)
Definition has_class (c : string) (r : option region) : Prop :=
  exists x, r = Some x /\ c ∈ classList x.

Definition lacks_class (c : string) (r : option region) : Prop :=
  exists x, r = Some x /\ c ∉ classList x.

(** ** More sample pages *)

Module Tour.

Definition unlocked_metamask : window :=
  {| solana := None;
     ethereum := Some {| isMetaMask := true; selectedAddress := Some "0xA1";
                         eth_accounts := Fulfilled (Some ["0xA1"; "0xB2"]);
                         eth_requestAccounts := Fulfilled (Some ["0xA1"; "0xB2"]) |};
     solflare := None |}.

(** The user closes the wallet's approval window. *)
Definition declining_phantom : window :=
  {| solana := Some {| isPhantom := true; solana_isConnected := false;
                       solana_connect_trusted := Rejected (Thrown (Some 4001) None);
                       solana_connect := Rejected (Thrown (Some 4001) None) |};
     ethereum := None; solflare := None |}.

(** Another Solana wallet sits in [window.solana]. *)
Definition other_solana_wallet : window :=
  {| solana := Some {| isPhantom := false; solana_isConnected := true;
                       solana_connect_trusted := Fulfilled (Some (Some (KeyStr "5tRk")));
                       solana_connect := Fulfilled (Some (Some (KeyStr "5tRk"))) |};
     ethereum := None; solflare := None |}.

(** Phantom that trusts the site but would hang on an interactive request. *)
Definition trusting_phantom_hanging : window :=
  {| solana := Some {| isPhantom := true; solana_isConnected := true;
                       solana_connect_trusted := Fulfilled (Some (Some (KeyObj "9" "xQe")));
                       solana_connect := Pending |};
     ethereum := None; solflare := None |}.

Definition fresh_page : world :=
  Sample.browser None Sample.trusting_phantom 5000.


Definition returning_page : world :=
  Sample.browser (Some (Sample.print_flat Sample.phantom_record))
                 Sample.trusting_phantom 2000.

End Tour.

(** ** Proof steps *)

(** Unfold the operations of both controllers down to field updates. *)
Ltac open_operations :=
  unfold Persistent.fire, Legacy.fire,
    Persistent.forceReauth, Legacy.forceReauth,
    Persistent.clearStoredConnection, Persistent.removeItem,
    Persistent.transitionToAuth, Legacy.transitionToAuth,
    Persistent.showAuthScreen, Legacy.showAuthScreen,
    Persistent.transitionToMainContent, Legacy.transitionToMainContent,
    Persistent.showMainContent, Legacy.showMainContent,
    Persistent.skipToMainContent,
    startLoadingSequence, updateProgress, Date_now, setTimeout, dispatchEvent;
  cbn.

(** Case on every [match] left in the goal. *)
Ltac split_branches :=
  repeat match goal with
         | |- context [match ?x with _ => _ end] => destruct x; cbn
         end.

(** A list grew by nothing, or by one element. *)
Ltac grew_by_at_most_one :=
  first [ exists []; split; [symmetry; apply app_nil_r | cbn; lia]
        | eexists [_]; split; [reflexivity | cbn; lia] ].

(** * Properties *)

(** ** Helper facts *)

Lemma loading_setTimeout_loading (cb : callback) (delay : Z) (w : world) :
  is_loading_timer (delay, cb) = true -> loading (setTimeout cb delay w) = true.
Proof.
  intros Hcb. unfold loading, setTimeout. simpl.
  rewrite existsb_app. simpl. rewrite Hcb. rewrite orb_true_r. reflexivity.
Qed.

Lemma updateProgress_loading (startTime : Z) (w : world) :
  loading (updateProgress startTime w) = true.
Proof.
  unfold updateProgress, Date_now.
  destruct (Qcompare _ _); apply loading_setTimeout_loading; reflexivity.
Qed.

Lemma startLoadingSequence_loading (w : world) :
  loading_elements (doc w) -> loading (startLoadingSequence w) = true.
Proof.
  intros ([b Hb] & [t Ht] & [l Hl] & [a Ha]).
  unfold startLoadingSequence. rewrite Hb, Ht, Hl, Ha.
  unfold Date_now. apply updateProgress_loading.
Qed.

(** What [startLoadingSequence] leaves alone. *)
Lemma startLoadingSequence_frame (w : world) :
  localStorage (startLoadingSequence w) = localStorage w /\
  events (startLoadingSequence w) = events w /\
  isAuthenticated (startLoadingSequence w) = isAuthenticated w /\
  connectedWallet (startLoadingSequence w) = connectedWallet w /\
  mainContent (doc (startLoadingSequence w)) = mainContent (doc w) /\
  loadingScreen (doc (startLoadingSequence w)) = loadingScreen (doc w) /\
  authScreen (doc (startLoadingSequence w)) = authScreen (doc w).
Proof.
  unfold startLoadingSequence.
  destruct (progressBar (doc w)), (loadingPercentage (doc w)),
    (loadingScreen (doc w)) eqn:Hl, (authScreen (doc w)) eqn:Ha;
    try (rewrite ?Hl, ?Ha; repeat split; reflexivity).
  unfold updateProgress, Date_now.
  destruct (Qcompare _ _); simpl; rewrite ?Hl, ?Ha; repeat split; reflexivity.
Qed.

Lemma stored_record_startLoadingSequence (w : world) :
  stored_record (startLoadingSequence w) = stored_record w.
Proof.
  unfold stored_record.
  destruct (startLoadingSequence_frame w) as [-> _]. reflexivity.
Qed.

Lemma stored_record_removeItem (w : world) :
  stored_record (Persistent.removeItem w) = None.
Proof. unfold stored_record, Persistent.removeItem. simpl. apply lookup_delete_eq. Qed.

(** The outcome of [checkExistingConnection] on a record past its day. *)
Lemma checkExistingConnection_expired (w : world) (raw : string) (data : jsval) (ts : Z) :
  stored_record w = Some raw ->
  String.eqb raw "" = false ->
  JSON_parse (engine w) raw = Some data ->
  get_prop data "timestamp" = Some (JNum (Num ts)) ->
  clock w (reads w) - ts > 86400000 ->
  Persistent.checkExistingConnection w
  = (Fulfilled false, Persistent.removeItem (snd (Date_now w))).
Proof.
  intros Hraw Hne Hparse Hts Hold.
  unfold Persistent.checkExistingConnection.
  unfold stored_record in Hraw. rewrite Hraw, Hne, Hparse.
  unfold Date_now. rewrite Hts. simpl.
  change (24 * 60 * 60 * 1000) with 86400000.
  destruct (Z.gtb_spec (clock w (reads w) - ts) 86400000) as [_ | Hle]; [reflexivity | lia].
Qed.

(** C1. At startup, a stored session record whose age [now - timestamp]
    exceeds 86,400,000 ms makes [checkExistingConnection] remove the record
    from local storage and resolve to [false]; [init] then starts the loading
    sequence: the controller stays unauthenticated, no connected event is
    dispatched, the main content is not revealed, and on a page with the
    loading elements the loading sequence is running. *)
Theorem expired_record_is_discarded
  (w : world) (raw : string) (data : jsval) (ts : Z) :
  stored_record w = Some raw ->
  String.eqb raw "" = false ->
  JSON_parse (engine w) raw = Some data ->
  get_prop data "timestamp" = Some (JNum (Num ts)) ->
  clock w (reads w) - ts > 86400000 ->
  isAuthenticated w = false ->
  fst (Persistent.checkExistingConnection w) = Fulfilled false /\
  stored_record (snd (Persistent.checkExistingConnection w)) = None /\
  Persistent.init w = startLoadingSequence (snd (Persistent.checkExistingConnection w)) /\
  stored_record (Persistent.init w) = None /\
  isAuthenticated (Persistent.init w) = false /\
  events (Persistent.init w) = events w /\
  mainContent (doc (Persistent.init w)) = mainContent (doc w) /\
  (loading_elements (doc w) -> loading (Persistent.init w) = true).
Proof.
  intros Hraw Hne Hparse Hts Hold Hauth.
  pose proof (checkExistingConnection_expired w raw data ts Hraw Hne Hparse Hts Hold) as Hc.
  unfold Persistent.init. rewrite Hc.
  set (w1 := Persistent.removeItem (snd (Date_now w))).
  cbn [fst snd].
  destruct (startLoadingSequence_frame w1) as (_ & He & Ha & _ & Hm & _ & _).
  repeat apply conj.
  - reflexivity.
  - apply stored_record_removeItem.
  - reflexivity.
  - rewrite stored_record_startLoadingSequence. apply stored_record_removeItem.
  - rewrite Ha. exact Hauth.
  - rewrite He. reflexivity.
  - rewrite Hm. reflexivity.
  - intros Hdom. apply startLoadingSequence_loading. exact Hdom.
Qed.

Lemma expired_record_is_discarded_witness :
  let w := Sample.startup (Some (Sample.print_flat Sample.phantom_record))
                          Sample.no_wallets 90001000 in
  stored_record (Persistent.init w) = None /\
  isAuthenticated (Persistent.init w) = false /\
  loading (Persistent.init w) = true.
Proof.
  intros w.
  destruct (expired_record_is_discarded w (Sample.print_flat Sample.phantom_record)
              Sample.phantom_record 1000)
    as (_ & _ & _ & Hs & Ha & _ & _ & Hl).
  - vm_compute. reflexivity.
  - vm_compute. reflexivity.
  - vm_compute. reflexivity.
  - vm_compute. reflexivity.
  - vm_compute. reflexivity.
  - vm_compute. reflexivity.
  - split; [exact Hs | split; [exact Ha |]].
    apply Hl. vm_compute. repeat split; eexists; reflexivity.
Defined.

(** Silent verification that cannot succeed resolves to [false] and
    changes nothing. *)
Lemma verifyWalletConnection_fails (k : wallet_kind) (w : world) :
  silent_failure k (win w) ->
  Persistent.verifyWalletConnection (JStr (kind_name k)) w = (Fulfilled false, w).
Proof.
  destruct k; unfold silent_failure, Persistent.verifyWalletConnection; simpl.
  - destruct (solana (win w)) as [p |]; [| reflexivity].
    intros [Hid | [[error Hrej] | (r & Hr & Hkey)]].
    + rewrite Hid. reflexivity.
    + rewrite Hrej. destruct (isPhantom p); reflexivity.
    + rewrite Hr, Hkey. destruct (isPhantom p); reflexivity.
  - destruct (solflare (win w)) as [p |]; [| reflexivity].
    intros [Hoff | Hkey].
    + rewrite Hoff. reflexivity.
    + rewrite Hkey. destruct (sf_isConnected p); reflexivity.
  - destruct (ethereum (win w)) as [p |]; [| reflexivity].
    intros [Hid | [[error Hrej] | [Hnone | Hnil]]].
    + rewrite Hid. reflexivity.
    + rewrite Hrej. destruct (isMetaMask p); reflexivity.
    + rewrite Hnone. destruct (isMetaMask p); reflexivity.
    + rewrite Hnil. destruct (isMetaMask p); reflexivity.
Qed.

Lemma checkExistingConnection_unverified
  (w : world) (raw : string) (data : jsval) (ts : Z) (k : wallet_kind) :
  stored_record w = Some raw ->
  String.eqb raw "" = false ->
  JSON_parse (engine w) raw = Some data ->
  get_prop data "timestamp" = Some (JNum (Num ts)) ->
  get_prop data "walletType" = Some (JStr (kind_name k)) ->
  clock w (reads w) - ts <= 86400000 ->
  silent_failure k (win w) ->
  Persistent.checkExistingConnection w = (Fulfilled false, snd (Date_now w)).
Proof.
  intros Hraw Hne Hparse Hts Hty Hfresh Hfail.
  unfold Persistent.checkExistingConnection.
  unfold stored_record in Hraw. rewrite Hraw, Hne, Hparse.
  unfold Date_now. rewrite Hts, Hty. cbn [ToNumber js_sub js_gt snd].
  change (24 * 60 * 60 * 1000) with 86400000.
  destruct (Z.gtb_spec (clock w (reads w) - ts) 86400000) as [Hold | _]; [lia |].
  rewrite verifyWalletConnection_fails by exact Hfail. reflexivity.
Qed.

(** C2, as the code has it. At startup, for a stored unexpired session record
    of any of the three wallet types whose silent verification fails (the
    provider is absent, reports no key or account, or its call rejects),
    [checkExistingConnection] resolves to [false] and leaves local storage as
    it was: the record stays under its key.  [init] then starts the loading
    sequence with the controller unauthenticated. *)
Theorem failed_verification_keeps_record
  (w : world) (raw : string) (data : jsval) (ts : Z) (k : wallet_kind) :
  stored_record w = Some raw ->
  String.eqb raw "" = false ->
  JSON_parse (engine w) raw = Some data ->
  get_prop data "timestamp" = Some (JNum (Num ts)) ->
  get_prop data "walletType" = Some (JStr (kind_name k)) ->
  clock w (reads w) - ts <= 86400000 ->
  silent_failure k (win w) ->
  isAuthenticated w = false ->
  fst (Persistent.checkExistingConnection w) = Fulfilled false /\
  localStorage (snd (Persistent.checkExistingConnection w)) = localStorage w /\
  Persistent.init w = startLoadingSequence (snd (Date_now w)) /\
  stored_record (Persistent.init w) = Some raw /\
  isAuthenticated (Persistent.init w) = false /\
  events (Persistent.init w) = events w /\
  (loading_elements (doc w) -> loading (Persistent.init w) = true).
Proof.
  intros Hraw Hne Hparse Hts Hty Hfresh Hfail Hauth.
  pose proof (checkExistingConnection_unverified w raw data ts k
                Hraw Hne Hparse Hts Hty Hfresh Hfail) as Hc.
  unfold Persistent.init. rewrite Hc.
  set (w1 := snd (Date_now w)). cbn [fst snd].
  destruct (startLoadingSequence_frame w1) as (_ & He & Ha & _).
  repeat apply conj.
  - reflexivity.
  - reflexivity.
  - reflexivity.
  - rewrite stored_record_startLoadingSequence. exact Hraw.
  - rewrite Ha. exact Hauth.
  - rewrite He. reflexivity.
  - intros Hdom. apply startLoadingSequence_loading. exact Hdom.
Qed.

Lemma failed_verification_keeps_record_witness :
  let raw := Sample.print_flat Sample.phantom_record in
  let w := Sample.startup (Some raw) Sample.no_wallets 2000 in
  stored_record (Persistent.init w) = Some raw /\
  isAuthenticated (Persistent.init w) = false /\
  loading (Persistent.init w) = true.
Proof.
  intros raw w.
  destruct (failed_verification_keeps_record w raw Sample.phantom_record 1000 phantom)
    as (_ & _ & _ & Hs & Ha & _ & Hl).
  - vm_compute. reflexivity.
  - vm_compute. reflexivity.
  - vm_compute. reflexivity.
  - vm_compute. reflexivity.
  - vm_compute. reflexivity.
  - vm_compute. discriminate.
  - vm_compute. exact I.
  - vm_compute. reflexivity.
  - split; [exact Hs | split; [exact Ha |]].
    apply Hl. vm_compute. repeat split; eexists; reflexivity.
Defined.

(** C2 as written fails: one second after a Phantom session was stored, on a
    page where no wallet provider is installed, startup enters the loading
    sequence and the record is still in local storage. *)
Lemma failed_verification_not_discarded :
  let raw := Sample.print_flat Sample.phantom_record in
  let w := Sample.startup (Some raw) Sample.no_wallets 2000 in
  stored_record w = Some raw /\
  JSON_parse (engine w) raw = Some Sample.phantom_record /\
  get_prop Sample.phantom_record "timestamp" = Some (JNum (Num 1000)) /\
  clock w (reads w) - 1000 <= 86400000 /\
  silent_failure phantom (win w) /\
  loading (Persistent.init w) = true /\
  stored_record (Persistent.init w) <> None.
Proof.
  vm_compute. repeat apply conj; try reflexivity; try exact I; discriminate.
Qed.

Lemma checkExistingConnection_unparseable (w : world) (raw : string) :
  stored_record w = Some raw ->
  String.eqb raw "" = false ->
  JSON_parse (engine w) raw = None \/ JSON_parse (engine w) raw = Some JNull ->
  exists w1,
    Persistent.checkExistingConnection w = (Fulfilled false, Persistent.removeItem w1) /\
    isAuthenticated w1 = isAuthenticated w /\ events w1 = events w /\ doc w1 = doc w.
Proof.
  intros Hraw Hne Hparse.
  unfold Persistent.checkExistingConnection.
  unfold stored_record in Hraw. rewrite Hraw, Hne.
  destruct Hparse as [-> | ->].
  - exists w. repeat split.
  - exists (snd (Date_now w)). repeat split.
Qed.

(** C9, as the code has it. At startup, a stored non-empty text that
    [JSON.parse] rejects, or parses to [null], is treated as an expired
    record is: [checkExistingConnection] removes it from local storage and
    resolves to [false], and [init] starts the loading sequence with the
    controller unauthenticated. *)
Theorem unparseable_record_is_discarded (w : world) (raw : string) :
  stored_record w = Some raw ->
  String.eqb raw "" = false ->
  JSON_parse (engine w) raw = None \/ JSON_parse (engine w) raw = Some JNull ->
  isAuthenticated w = false ->
  fst (Persistent.checkExistingConnection w) = Fulfilled false /\
  stored_record (snd (Persistent.checkExistingConnection w)) = None /\
  Persistent.init w = startLoadingSequence (snd (Persistent.checkExistingConnection w)) /\
  stored_record (Persistent.init w) = None /\
  isAuthenticated (Persistent.init w) = false /\
  events (Persistent.init w) = events w /\
  (loading_elements (doc w) -> loading (Persistent.init w) = true).
Proof.
  intros Hraw Hne Hparse Hauth.
  destruct (checkExistingConnection_unparseable w raw Hraw Hne Hparse)
    as (w1 & Hc & Ha1 & He1 & Hd1).
  unfold Persistent.init. rewrite Hc. cbn [fst snd].
  destruct (startLoadingSequence_frame (Persistent.removeItem w1)) as (_ & He & Ha & _).
  repeat apply conj.
  - reflexivity.
  - apply stored_record_removeItem.
  - reflexivity.
  - rewrite stored_record_startLoadingSequence. apply stored_record_removeItem.
  - rewrite Ha. simpl. rewrite Ha1. exact Hauth.
  - rewrite He. simpl. exact He1.
  - intros Hdom. apply startLoadingSequence_loading. simpl. rewrite Hd1. exact Hdom.
Qed.

Lemma unparseable_record_is_discarded_witness :
  let w := Sample.startup (Some "{walletType:") Sample.no_wallets 2000 in
  stored_record (Persistent.init w) = None /\
  isAuthenticated (Persistent.init w) = false /\
  loading (Persistent.init w) = true.
Proof.
  intros w.
  destruct (unparseable_record_is_discarded w "{walletType:")
    as (_ & _ & _ & Hs & Ha & _ & Hl).
  - vm_compute. reflexivity.
  - vm_compute. reflexivity.
  - left. vm_compute. reflexivity.
  - vm_compute. reflexivity.
  - split; [exact Hs | split; [exact Ha |]].
    apply Hl. vm_compute. repeat split; eexists; reflexivity.
Defined.

(** C9 as written fails: a stored record that parses but has lost its
    [timestamp] is neither discarded nor sent to the loading sequence.  Its
    age is NaN, the expiry test is false, and with Phantom trusting the site
    silent verification succeeds: the controller is authenticated and the
    record is still in local storage. *)
Lemma corrupt_record_resumes_session :
  let raw := Sample.print_flat Sample.untimed_record in
  let w := Sample.startup (Some raw) Sample.trusting_phantom 2000 in
  stored_record w = Some raw /\
  JSON_parse (engine w) raw = Some Sample.untimed_record /\
  get_prop Sample.untimed_record "timestamp" = Some JUndefined /\
  isAuthenticated (Persistent.init w) = true /\
  loading (Persistent.init w) = false /\
  stored_record (Persistent.init w) <> None.
Proof.
  vm_compute. repeat apply conj; try reflexivity; discriminate.
Qed.






(** ** Progress of the loading sequence *)

Local Open Scope Q_scope.

Lemma progress_at_le_100 (h : host) (d : Q) (e : Z) : progress_at h d e <= 100.
Proof. unfold progress_at. apply Q.le_min_r. Qed.

Lemma progress_at_monotone (h : host) (d : Q) (e1 e2 : Z) :
  0 < d ->
  (forall x y, x <= y -> round h x <= round h y) ->
  (e1 <= e2)%Z ->
  progress_at h d e1 <= progress_at h d e2.
Proof.
  intros Hd Hround He. unfold progress_at.
  apply Q.min_le_compat_r. apply Hround.
  apply Qmult_le_compat_r; [| discriminate].
  apply Hround. unfold Qdiv.
  apply Qmult_le_compat_r.
  - rewrite <- Zle_Qle. exact He.
  - apply Qlt_le_weak. apply Qinv_lt_0_compat. exact Hd.
Qed.

Lemma progress_samples_sorted (h : host) (d : Q) (elapsed : list Z) :
  0 < d ->
  (forall x y, x <= y -> round h x <= round h y) ->
  StronglySorted Z.le elapsed ->
  StronglySorted Qle (map (progress_at h d) elapsed).
Proof.
  intros Hd Hround Hsorted.
  induction Hsorted as [| e es _ IH Hall]; simpl; constructor.
  - exact IH.
  - apply Forall_map. eapply Forall_impl; [exact Hall |].
    intros e' He'. apply progress_at_monotone; assumption.
Qed.

(** The two ways [updateProgress] ends. *)
Lemma updateProgress_cases (startTime : Z) (w : world) :
  let p := progress_at (engine w) (loadingDuration w) (clock w (reads w) - startTime)%Z in
  doc (updateProgress startTime w) = set_progress p (Qfloor p) (doc w) /\
  ((p < 100 /\
    timers (updateProgress startTime w)
    = (timers w ++ [(50%Z, cb_updateProgress startTime)])%list) \/
   (p == 100 /\
    timers (updateProgress startTime w)
    = (timers w ++ [(500%Z, cb_transitionToAuth)])%list)).
Proof.
  intros p. unfold updateProgress, Date_now. cbn [engine loadingDuration set_reads].
  fold p.
  destruct (p ?= 100) eqn:Hcmp; cbn; (split; [reflexivity |]).
  - right. split; [| reflexivity]. apply Qeq_alt. exact Hcmp.
  - left. split; [| reflexivity]. apply Qlt_alt. exact Hcmp.
  - exfalso. apply Qgt_alt in Hcmp.
    apply (Qlt_not_le _ _ Hcmp). apply progress_at_le_100.
Qed.

(** C4. With a positive loading duration, the sampled progress
    [min((elapsed / loadingDuration) * 100, 100)] is a non-decreasing function
    of the elapsed time, so every sequence of samples taken at non-decreasing
    elapsed times is non-decreasing; it never exceeds 100; and each run of
    [updateProgress] writes the sample of its own elapsed time, schedules the
    transition to the selection screen only when that sample equals 100 (the
    label then reads 100) and otherwise reschedules itself with a sample below
    100.  Division and multiplication are exact operations followed by a
    rounding that is only assumed monotone, as rounding to the nearest double
    is. *)
Theorem progress_is_monotone_and_clamped (w : world) (startTime : Z) :
  0 < loadingDuration w ->
  (forall x y, x <= y -> round (engine w) x <= round (engine w) y) ->
  let progress := progress_at (engine w) (loadingDuration w) in
  let w' := updateProgress startTime w in
  let p := progress (clock w (reads w) - startTime)%Z in
  (forall e1 e2 : Z, (e1 <= e2)%Z -> progress e1 <= progress e2) /\
  (forall elapsed : list Z,
      StronglySorted Z.le elapsed -> StronglySorted Qle (map progress elapsed)) /\
  (forall e : Z, progress e <= 100) /\
  progressBar (doc w') = (fun _ => p) <$> progressBar (doc w) /\
  (timers w' = (timers w ++ [(500%Z, cb_transitionToAuth)])%list ->
   p == 100 /\
   loadingPercentage (doc w') = (fun _ => 100%Z) <$> loadingPercentage (doc w)) /\
  (timers w' <> (timers w ++ [(500%Z, cb_transitionToAuth)])%list ->
   p < 100 /\
   timers w' = (timers w ++ [(50%Z, cb_updateProgress startTime)])%list).
Proof.
  intros Hd Hround progress w' p.
  destruct (updateProgress_cases startTime w) as [Hdoc Hcases].
  fold progress in Hdoc, Hcases. fold p in Hdoc, Hcases. fold w' in Hdoc, Hcases.
  repeat apply conj.
  - intros e1 e2 He. apply progress_at_monotone; assumption.
  - intros elapsed Hs. apply progress_samples_sorted; assumption.
  - intros e. apply progress_at_le_100.
  - rewrite Hdoc. reflexivity.
  - intros Ht. destruct Hcases as [[_ Ht'] | [Heq _]].
    + rewrite Ht' in Ht. apply app_inv_head in Ht. discriminate Ht.
    + split; [exact Heq |]. rewrite Hdoc. cbn [loadingPercentage set_progress].
      rewrite (Qfloor_comp p 100 Heq). reflexivity.
  - intros Ht. destruct Hcases as [[Hlt Ht'] | [_ Ht']].
    + split; assumption.
    + contradiction.
Qed.

Lemma progress_is_monotone_and_clamped_witness :
  let h := Sample.exact in
  progress_at h 2000 500 <= progress_at h 2000 1000 /\
  progress_at h 2000 2500 <= 100 /\
  StronglySorted Qle (map (progress_at h 2000) [0; 50; 100; 2000; 2050]%Z).
Proof.
  intros h.
  destruct (progress_is_monotone_and_clamped
              (Sample.startup None Sample.no_wallets 0) 0)
    as (Hmono & Hsorted & Hle & _).
  - vm_compute. reflexivity.
  - intros x y Hxy. exact Hxy.
  - split; [apply Hmono; lia |].
    split; [apply Hle |].
    apply Hsorted.
    repeat (constructor; [| repeat (constructor; try lia)]). constructor.
Defined.

Local Close Scope Q_scope.

(** ** Failures of the interactive adapters *)

(** C5, as the code has it. When the provider's interactive connect operation
    throws an error with code -32002, only the MetaMask adapter fails with
    the already-pending error, which is neither the user-rejection error nor
    a connection-failed error.  The Phantom and Solflare adapters have no
    case for the code: they fail with the user-rejection error when the
    message contains their rejection word, with the connection-failed error
    carrying the message otherwise, and with a TypeError when the error has
    no message. *)
Theorem already_pending_by_wallet
  (k : wallet_kind) (win : window) (message : option string) :
  connect_throws k win (Thrown (Some (-32002)) message) ->
  connect (kind_name k) win
  = Rejected
      match k with
      | metamask => RequestAlreadyPending
      | phantom =>
          match message with
          | Some m => if includes m "User rejected" then UserRejected
                      else ConnectionFailed m
          | None => TypeError
          end
      | solflare_kind =>
          match message with
          | Some m => if includes m "rejected" then UserRejected
                      else ConnectionFailed m
          | None => TypeError
          end
      end /\
  RequestAlreadyPending <> UserRejected /\
  (forall m, RequestAlreadyPending <> ConnectionFailed m).
Proof.
  intros Hthrows. split; [| split; [discriminate | intros m; discriminate]].
  destruct k; cbn in Hthrows.
  - destruct Hthrows as (p & Hp & Hid & Hrej).
    unfold connect, connectPhantom. cbn [kind_name String.eqb Ascii.eqb Bool.eqb].
    rewrite Hp, Hid, Hrej. cbn [try_catch catch_solana code_is Z.eqb].
    destruct message as [m |]; [| reflexivity].
    destruct (includes m "User rejected"); reflexivity.
  - destruct Hthrows as (p & Hp & Hdis & Hrej).
    unfold connect, connectSolflare. cbn [kind_name].
    change (String.eqb "solflare" "phantom") with false.
    change (String.eqb "solflare" "solflare") with true. cbn iota.
    rewrite Hp, Hrej.
    assert (Hgo : (if sf_isConnected p
                   then match sf_disconnect p with
                        | Pending => Pending
                        | _ => Fulfilled tt
                        end
                   else Fulfilled tt) = (Fulfilled tt : settled thrown unit)).
    { destruct (sf_isConnected p); [| reflexivity].
      destruct (sf_disconnect p); try reflexivity.
      exfalso. apply Hdis; reflexivity. }
    rewrite Hgo. cbn [try_catch catch_solana code_is Z.eqb].
    destruct message as [m |]; [| reflexivity].
    destruct (includes m "rejected"); reflexivity.
  - destruct Hthrows as (p & Hp & Hid & Hrej).
    unfold connect, connectMetaMask. cbn [kind_name].
    change (String.eqb "metamask" "phantom") with false.
    change (String.eqb "metamask" "solflare") with false.
    change (String.eqb "metamask" "metamask") with true. cbn iota.
    rewrite Hp, Hid, Hrej. reflexivity.
Qed.

Lemma already_pending_by_wallet_witness :
  connect "metamask" Sample.busy_metamask = Rejected RequestAlreadyPending.
Proof.
  apply (already_pending_by_wallet metamask Sample.busy_metamask
           (Some "Request already pending")).
  cbn. eexists. repeat split; reflexivity.
Defined.

(** C5 as written fails for Phantom: a provider that is there, identifies
    itself, and whose [connect()] throws with code -32002 makes the attempt
    fail with the connection-failed error, not the already-pending one. *)
Lemma phantom_pending_reported_as_failure :
  connect_throws phantom Sample.busy_phantom
                 (Thrown (Some (-32002)) (Some "Request already pending")) /\
  connect (kind_name phantom) Sample.busy_phantom
  = Rejected (ConnectionFailed "Request already pending") /\
  connect (kind_name phantom) Sample.busy_phantom <> Rejected RequestAlreadyPending.
Proof.
  split; [| split].
  - cbn. eexists. repeat split; reflexivity.
  - vm_compute. reflexivity.
  - vm_compute. discriminate.
Qed.

Lemma connect_provider_undefined (k : wallet_kind) (win : window) :
  provider_undefined k win ->
  connect (kind_name k) win = Rejected (ProviderNotFound k).
Proof.
  destruct k; cbn; intros Hnone.
  - unfold connect, connectPhantom. cbn. rewrite Hnone. reflexivity.
  - unfold connect, connectSolflare. cbn. rewrite Hnone. reflexivity.
  - unfold connect, connectMetaMask. cbn. rewrite Hnone. reflexivity.
Qed.

(** C6. For each of the three wallet types, when the provider object is
    undefined the adapter fails with the provider-not-found error, which the
    adapter's own handler words as a connection failure carrying the "wallet
    not detected" message.  [connectWallet], in both controllers, then leaves
    local storage, the session fields and the dispatched events as they were:
    no session record is written, and the card of that wallet, when the page
    has one, shows the error state until its reset timer fires. *)
Theorem missing_provider_fails (k : wallet_kind) (w : world) :
  provider_undefined k (win w) ->
  connect (kind_name k) (win w) = Rejected (ProviderNotFound k) /\
  localStorage (Persistent.connectWallet (kind_name k) w) = localStorage w /\
  isAuthenticated (Persistent.connectWallet (kind_name k) w) = isAuthenticated w /\
  connectedWallet (Persistent.connectWallet (kind_name k) w) = connectedWallet w /\
  events (Persistent.connectWallet (kind_name k) w) = events w /\
  localStorage (Legacy.connectWallet (kind_name k) w) = localStorage w /\
  isAuthenticated (Legacy.connectWallet (kind_name k) w) = isAuthenticated w /\
  (forall button,
      cards (doc w) !! kind_name k = Some button ->
      cards (doc (Persistent.connectWallet (kind_name k) w)) !! kind_name k
      = Some (card_error (card_busy button)) /\
      timers (Persistent.connectWallet (kind_name k) w)
      = (timers w ++ [(3000, cb_resetCard (kind_name k) (walletName button)
                                         (connectText button))])%list).
Proof.
  intros Hnone.
  pose proof (connect_provider_undefined k (win w) Hnone) as Hc.
  split; [exact Hc |].
  unfold Persistent.connectWallet, Legacy.connectWallet.
  destruct (cards (doc w) !! kind_name k) as [button |] eqn:Hcard.
  - cbn [win set_doc]. rewrite Hc. cbn.
    repeat apply conj; try reflexivity.
    intros button' Hb. injection Hb as <-.
    split; [| reflexivity].
    rewrite !lookup_alter_eq, Hcard. reflexivity.
  - repeat apply conj; try reflexivity. intros button' Hb. discriminate Hb.
Qed.

Lemma missing_provider_fails_witness :
  let w := Sample.startup None Sample.no_wallets 5000 in
  connect "phantom" (win w) = Rejected (ProviderNotFound phantom) /\
  localStorage (Persistent.connectWallet "phantom" w) = localStorage w.
Proof.
  intros w.
  destruct (missing_provider_fails phantom w) as (Hc & Hs & _).
  - vm_compute. reflexivity.
  - split; [exact Hc | exact Hs].
Defined.

(** ** Normalisation of the connection result *)

Lemma truthy_key_Some (k : option pubkey) (key : pubkey) :
  truthy_key k = Some key <-> k = Some key /\ key_toString key <> "".
Proof.
  destruct k as [[s | c rest] |]; cbn.
  - destruct (String.eqb_spec s "") as [-> | Hs]; cbn.
    + split; [discriminate |]. intros [[= <-] Hne]. contradiction.
    + split.
      * intros [= <-]. split; [reflexivity | exact Hs].
      * intros [[= <-] _]. reflexivity.
  - split.
    + intros [= <-]. split; [reflexivity | discriminate].
    + intros [[= <-] _]. reflexivity.
  - split; [discriminate | intros [[=] _]].
Qed.

Lemma truthy_key_None (k : option pubkey) :
  truthy_key k = None <-> ~ nonempty_key k.
Proof.
  split.
  - intros Hnone (key & Hk & Hne).
    assert (truthy_key k = Some key) as Hsome by (apply truthy_key_Some; auto).
    congruence.
  - intros Hnot. destruct (truthy_key k) as [key |] eqn:Hk; [| reflexivity].
    exfalso. apply Hnot. exists key. apply truthy_key_Some. exact Hk.
Qed.

(** C7. When Solflare's [connect()] resolves to a response without a usable
    [publicKey] while the provider's own [publicKey] property, or the
    [publicKey] of its nested [wallet], holds a non-empty key, [connectSolflare]
    resolves to a result of type [solflare] whose address (and public key) is
    the non-empty text of that key: the provider's own one when it has it,
    the nested one otherwise. *)
Theorem solflare_key_fallback (win : window) (p : solflare_provider) (r : response) :
  solflare win = Some p ->
  (sf_isConnected p = true -> sf_disconnect p <> Pending) ->
  sf_connect p = Fulfilled r ->
  response_key r = None ->
  nonempty_key (sf_publicKey p) \/ nonempty_key (sf_wallet_publicKey p) ->
  exists key,
    connectSolflare win
    = Fulfilled {| type := "solflare"; publicKey := key_toString key;
                   address := key_toString key |} /\
    key_toString key <> "" /\
    (nonempty_key (sf_publicKey p) -> sf_publicKey p = Some key) /\
    (~ nonempty_key (sf_publicKey p) -> sf_wallet_publicKey p = Some key).
Proof.
  intros Hp Hdis Hconn Hresp Hkeys.
  assert (Hgo : (if sf_isConnected p
                 then match sf_disconnect p with
                      | Pending => Pending
                      | _ => Fulfilled tt
                      end
                 else Fulfilled tt) = (Fulfilled tt : settled thrown unit)).
  { destruct (sf_isConnected p); [| reflexivity].
    destruct (sf_disconnect p); try reflexivity.
    exfalso. apply Hdis; reflexivity. }
  assert (Hkey : exists key,
             solflare_key r p = Some key /\ key_toString key <> "" /\
             (nonempty_key (sf_publicKey p) -> sf_publicKey p = Some key) /\
             (~ nonempty_key (sf_publicKey p) -> sf_wallet_publicKey p = Some key)).
  { unfold solflare_key. rewrite Hresp.
    destruct (truthy_key (sf_publicKey p)) as [own |] eqn:Hown.
    - apply truthy_key_Some in Hown. destruct Hown as [Hown Hne].
      exists own. repeat split; auto.
      intros Hnot. exfalso. apply Hnot. exists own. auto.
    - apply truthy_key_None in Hown.
      destruct Hkeys as [Habs | (key & Hk & Hne)]; [contradiction |].
      exists key. unfold sf_wallet_publicKey in Hk.
      destruct (sf_wallet p) as [nested |] eqn:Hw; [| discriminate Hk].
      subst nested.
      assert (truthy_key (Some key) = Some key) as -> by (apply truthy_key_Some; auto).
      repeat split; auto.
      + intros Habs. contradiction.
      + intros _. unfold sf_wallet_publicKey. rewrite Hw. reflexivity. }
  destruct Hkey as (key & Hk & Hne & Hown & Hnested).
  exists key. split; [| auto].
  unfold connectSolflare. rewrite Hp, Hgo, Hconn, Hk. reflexivity.
Qed.

Lemma solflare_key_fallback_witness :
  connectSolflare Sample.nested_solflare
  = Fulfilled {| type := "solflare"; publicKey := "7Gh2"; address := "7Gh2" |}.
Proof.
  destruct (solflare_key_fallback Sample.nested_solflare
              Sample.nested_solflare_provider (Some None))
    as (key & Hres & _ & _ & Hnested).
  - reflexivity.
  - vm_compute. intros _. discriminate.
  - reflexivity.
  - reflexivity.
  - right. exists (KeyStr "7Gh2"). split; [reflexivity | discriminate].
  - rewrite Hres.
    assert (Hkey : Some (KeyStr "7Gh2") = Some key).
    { apply Hnested. intros (k & Hk & _). discriminate Hk. }
    injection Hkey as <-. reflexivity.
Defined.

(** ** Session records *)

(** C8, as the code has it. In the controller with session persistence, a
    successful connect attempt from the card of any wallet type sets the
    session fields, dispatches the connected event and, local storage
    accepting the write, stores under the session key and over whatever was
    there the record of the result stamped with the current time.  The
    controller without persistence sets the session fields and leaves local
    storage untouched. *)
Theorem successful_connect_stores_record
  (walletType : string) (w : world) (button : card) (result : wallet) :
  cards (doc w) !! walletType = Some button ->
  connect walletType (win w) = Fulfilled result ->
  let record :=
    JSON_stringify (engine w) (Persistent.connectionData result (clock w (reads w))) in
  localStorage (Persistent.connectWallet walletType w)
  = <[ micro_wallet_connection := record ]> (localStorage w) /\
  stored_record (Persistent.connectWallet walletType w) = Some record /\
  isAuthenticated (Persistent.connectWallet walletType w) = true /\
  connectedWallet (Persistent.connectWallet walletType w) = Some result /\
  events (Persistent.connectWallet walletType w)
  = (events w ++ [walletConnected result])%list /\
  localStorage (Legacy.connectWallet walletType w) = localStorage w /\
  isAuthenticated (Legacy.connectWallet walletType w) = true /\
  connectedWallet (Legacy.connectWallet walletType w) = Some result.
Proof.
  intros Hcard Hconnect record.
  unfold Persistent.connectWallet, Legacy.connectWallet.
  rewrite Hcard. cbn [win set_doc]. rewrite Hconnect.
  repeat apply conj; try reflexivity.
  unfold stored_record. cbn. apply lookup_insert_eq.
Qed.

Lemma successful_connect_stores_record_witness :
  let w := Sample.startup (Some "stale") Sample.trusting_phantom 5000 in
  stored_record (Persistent.connectWallet "phantom" w)
  = Some (Sample.print_flat
            (Persistent.connectionData
               {| type := "phantom"; publicKey := "9xQe"; address := "9xQe" |} 5000)).
Proof.
  intros w.
  destruct (successful_connect_stores_record "phantom" w (Sample.idle "PHANTOM")
              {| type := "phantom"; publicKey := "9xQe"; address := "9xQe" |})
    as (_ & Hs & _).
  - vm_compute. reflexivity.
  - vm_compute. reflexivity.
  - exact Hs.
Defined.

(** C8 as written fails for the controller without persistence: a successful
    Phantom connect on a fresh page authenticates the controller and local
    storage still holds no session record. *)
Lemma legacy_connect_stores_nothing :
  let w := Sample.legacy_startup None Sample.trusting_phantom 5000 in
  connect "phantom" (win w)
  = Fulfilled {| type := "phantom"; publicKey := "9xQe"; address := "9xQe" |} /\
  isAuthenticated (Legacy.connectWallet "phantom" w) = true /\
  stored_record (Legacy.connectWallet "phantom" w) = None.
Proof. vm_compute. repeat split. Qed.

Lemma connectPhantom_result (win : window) (result : wallet) :
  connectPhantom win = Fulfilled result ->
  publicKey result = address result /\ provider_supplied win (address result).
Proof.
  unfold connectPhantom. intros H.
  destruct (solana win) as [p |] eqn:Hp; [| discriminate H].
  destruct (isPhantom p); [| discriminate H].
  destruct (solana_connect p) as [r | e |] eqn:Hc; try discriminate H.
  destruct (response_key r) as [key |] eqn:Hk; [| discriminate H].
  injection H as <-. split; [reflexivity |]. cbn.
  eapply solana_connect_key; eassumption.
Qed.

Lemma connectMetaMask_result (win : window) (result : wallet) :
  connectMetaMask win = Fulfilled result ->
  publicKey result = address result /\ provider_supplied win (address result).
Proof.
  unfold connectMetaMask. intros H.
  destruct (ethereum win) as [p |] eqn:Hp; [| discriminate H].
  destruct (isMetaMask p); [| discriminate H].
  destruct (eth_requestAccounts p) as [[[| account rest] |] | e |] eqn:Hc;
    try discriminate H.
  injection H as <-. split; [reflexivity |]. cbn.
  eapply ethereum_requested_account; eassumption.
Qed.

Lemma solflare_key_supplied (win : window) (p : solflare_provider) (r : response)
  (key : pubkey) :
  solflare win = Some p -> sf_connect p = Fulfilled r ->
  solflare_key r p = Some key -> provider_supplied win (key_toString key).
Proof.
  intros Hp Hc. unfold solflare_key.
  destruct (response_key r) as [k1 |] eqn:H1.
  - intros [= <-]. eapply solflare_connect_key; eassumption.
  - destruct (truthy_key (sf_publicKey p)) as [k2 |] eqn:H2.
    + intros [= <-]. apply truthy_key_Some in H2. destruct H2 as [H2 _].
      eapply solflare_own_key; eassumption.
    + destruct (sf_wallet p) as [nested |] eqn:H3; [| discriminate].
      intros H4. apply truthy_key_Some in H4. destruct H4 as [-> _].
      eapply solflare_nested_key; eassumption.
Qed.

Lemma connectSolflare_result (win : window) (result : wallet) :
  connectSolflare win = Fulfilled result ->
  publicKey result = address result /\ provider_supplied win (address result).
Proof.
  unfold connectSolflare. intros H.
  destruct (solflare win) as [p |] eqn:Hp; [| discriminate H].
  destruct (if sf_isConnected p then _ else _); try discriminate H;
    (destruct (sf_connect p) as [r | err |] eqn:Hc; try discriminate H;
     destruct (solflare_key r p) as [key |] eqn:Hk; [| discriminate H];
     injection H as <-; split; [reflexivity |]; cbn;
     eapply solflare_key_supplied; eassumption).
Qed.

Lemma verifyWalletConnection_result (walletType : jsval) (w w' : world) (result : wallet) :
  Persistent.verifyWalletConnection walletType w = (Fulfilled true, w') ->
  connectedWallet w' = Some result ->
  publicKey result = address result /\ provider_supplied (win w) (address result).
Proof.
  unfold Persistent.verifyWalletConnection, Persistent.verified. intros H Hcw.
  destruct walletType as [| | | | name | |]; try discriminate H.
  destruct (String.eqb name "phantom").
  { destruct (solana (win w)) as [p |] eqn:Hp; [| discriminate H].
    destruct (isPhantom p); [| discriminate H].
    destruct (solana_connect_trusted p) as [r | e |] eqn:Hc; try discriminate H.
    destruct (response_key r) as [key |] eqn:Hk; [| discriminate H].
    injection H as <-. cbn in Hcw. injection Hcw as <-.
    split; [reflexivity |]. cbn. eapply solana_trusted_key; eassumption. }
  destruct (String.eqb name "metamask").
  { destruct (ethereum (win w)) as [p |] eqn:Hp; [| discriminate H].
    destruct (isMetaMask p); [| discriminate H].
    destruct (eth_accounts p) as [[[| account rest] |] | e |] eqn:Hc;
      try discriminate H.
    injection H as <-. cbn in Hcw. injection Hcw as <-.
    split; [reflexivity |]. cbn. eapply ethereum_permitted_account; eassumption. }
  destruct (String.eqb name "solflare"); [| discriminate H].
  destruct (solflare (win w)) as [p |] eqn:Hp; [| discriminate H].
  destruct (sf_isConnected p); [| discriminate H].
  destruct (truthy_key (sf_publicKey p)) as [key |] eqn:Hk; [| discriminate H].
  injection H as <-. cbn in Hcw. injection Hcw as <-.
  split; [reflexivity |]. cbn.
  apply truthy_key_Some in Hk. destruct Hk as [Hk _].
  eapply solflare_own_key; eassumption.
Qed.

(** C10. Every connection result, whether one of the three interactive
    adapters resolved to it or silent verification left it in
    [connectedWallet], has [publicKey] equal to [address], and that string is
    the text of a key, or the first account, that the provider supplied.  The
    session record [storeWalletConnection] writes for such a result therefore
    carries one and the same string in its [publicKey] and [address]
    fields. *)
Theorem publicKey_equals_address (w : world) (result : wallet) :
  connection_result w result ->
  publicKey result = address result /\
  provider_supplied (win w) (address result) /\
  forall w0 : world,
    stored_record (Persistent.storeWalletConnection result w0)
    = Some (JSON_stringify (engine w0)
              (JObj [("walletType", JStr (type result));
                     ("timestamp", JNum (Num (clock w0 (reads w0))));
                     ("publicKey", JStr (address result));
                     ("address", JStr (address result))])).
Proof.
  intros Hres.
  assert (Hboth : publicKey result = address result /\
                  provider_supplied (win w) (address result)).
  { destruct Hres as [H | H | H | walletType w' H Hcw].
    - apply connectPhantom_result. exact H.
    - apply connectSolflare_result. exact H.
    - apply connectMetaMask_result. exact H.
    - eapply verifyWalletConnection_result; eassumption. }
  destruct Hboth as [Heq Hsup].
  repeat apply conj; [exact Heq | exact Hsup |].
  intros w0. unfold stored_record, Persistent.storeWalletConnection,
    Persistent.connectionData. cbn. rewrite Heq. apply lookup_insert_eq.
Qed.

Lemma publicKey_equals_address_witness :
  let w := Sample.startup None Sample.nested_solflare 5000 in
  let result := {| type := "solflare"; publicKey := "7Gh2"; address := "7Gh2" |} in
  publicKey result = address result /\
  provider_supplied (win w) (address result).
Proof.
  intros w result.
  destruct (publicKey_equals_address w result) as (Heq & Hsup & _).
  - apply by_connectSolflare. vm_compute. reflexivity.
  - split; [exact Heq | exact Hsup].
Defined.


(** * Further properties *)

(** ** Classes of a region *)

Lemma classList_add_has (c : string) (r : region) : c ∈ classList (classList_add c r).
Proof. cbn. apply elem_of_union. left. apply elem_of_singleton. reflexivity. Qed.

Lemma classList_remove_lacks (c : string) (r : region) :
  c ∉ classList (classList_remove c r).
Proof.
  cbn. intros H. apply elem_of_difference in H. destruct H as [_ H].
  apply H. apply elem_of_singleton. reflexivity.
Qed.

Lemma classList_add_keeps (c c' : string) (r : region) :
  c' ∈ classList r -> c' ∈ classList (classList_add c r).
Proof. intros H. cbn. apply elem_of_union. right. exact H. Qed.

(** ** Silent verification *)

Lemma verifyWalletConnection_succeeds (k : wallet_kind) (w : world) (text : string) :
  silently_verified k (win w) text ->
  Persistent.verifyWalletConnection (JStr (kind_name k)) w
  = (Fulfilled true,
     set_session true
       (Some {| type := kind_name k; publicKey := text; address := text |}) w).
Proof.
  destruct k; unfold silently_verified, Persistent.verifyWalletConnection; cbn.
  - intros (p & r & key & Hp & Hid & Hc & Hk & <-).
    rewrite Hp, Hid, Hc, Hk. reflexivity.
  - intros (p & key & Hp & Hon & Hk & <-).
    rewrite Hp, Hon, Hk. reflexivity.
  - intros (p & rest & Hp & Hid & Hc).
    rewrite Hp, Hid, Hc. reflexivity.
Qed.

(** X1. Silent verification has three outcomes and no other: it resolves to
    [false] having changed nothing, it never settles having changed nothing,
    or the stored type is one of the three wallet names, the provider of that
    wallet answered the silent check with a key or account, and it resolves to
    [true] having set exactly the session fields to that wallet.  It never
    rejects. *)
Theorem silent_verification_outcomes (walletType : jsval) (w : world) :
  Persistent.verifyWalletConnection walletType w = (Fulfilled false, w) \/
  Persistent.verifyWalletConnection walletType w = (Pending, w) \/
  exists k text,
    walletType = JStr (kind_name k) /\
    silently_verified k (win w) text /\
    Persistent.verifyWalletConnection walletType w
    = (Fulfilled true,
       set_session true
         (Some {| type := kind_name k; publicKey := text; address := text |}) w).
Proof.
  unfold Persistent.verifyWalletConnection, Persistent.verified.
  destruct walletType as [| | | | name | |]; try (left; reflexivity).
  destruct (String.eqb_spec name "phantom") as [-> | _].
  { destruct (solana (win w)) as [p |] eqn:Hp; [| left; reflexivity].
    destruct (isPhantom p) eqn:Hid; [| left; reflexivity].
    destruct (solana_connect_trusted p) as [r | e |] eqn:Hc;
      [| left; reflexivity | right; left; reflexivity].
    destruct (response_key r) as [key |] eqn:Hk; [| left; reflexivity].
    right. right. exists phantom, (key_toString key).
    split; [reflexivity |]. split; [| reflexivity].
    cbn. exists p, r, key. auto. }
  destruct (String.eqb_spec name "metamask") as [-> | _].
  { destruct (ethereum (win w)) as [p |] eqn:Hp; [| left; reflexivity].
    destruct (isMetaMask p) eqn:Hid; [| left; reflexivity].
    destruct (eth_accounts p) as [[[| account rest] |] | e |] eqn:Hc;
      try (left; reflexivity); [| right; left; reflexivity].
    right. right. exists metamask, account.
    split; [reflexivity |]. split; [| reflexivity].
    cbn. exists p, rest. auto. }
  destruct (String.eqb_spec name "solflare") as [-> | _]; [| left; reflexivity].
  destruct (solflare (win w)) as [p |] eqn:Hp; [| left; reflexivity].
  destruct (sf_isConnected p) eqn:Hon; [| left; reflexivity].
  destruct (truthy_key (sf_publicKey p)) as [key |] eqn:Hk; [| left; reflexivity].
  right. right. exists solflare_kind, (key_toString key).
  split; [reflexivity |]. split; [| reflexivity].
  cbn. exists p, key. auto.
Qed.

Lemma verifyWalletConnection_never_rejects (walletType : jsval) (w : world) :
  forall e w', Persistent.verifyWalletConnection walletType w <> (Rejected e, w').
Proof.
  intros e w' H.
  destruct (silent_verification_outcomes walletType w)
    as [H1 | [H1 | (k & text & _ & _ & H1)]]; rewrite H1 in H; discriminate H.
Qed.

Lemma checkExistingConnection_unexpired
  (w : world) (raw : string) (data : jsval) (ts : Z) (walletType : jsval) :
  stored_record w = Some raw ->
  String.eqb raw "" = false ->
  JSON_parse (engine w) raw = Some data ->
  get_prop data "timestamp" = Some (JNum (Num ts)) ->
  get_prop data "walletType" = Some walletType ->
  clock w (reads w) - ts <= 86400000 ->
  Persistent.checkExistingConnection w
  = Persistent.verifyWalletConnection walletType (snd (Date_now w)).
Proof.
  intros Hraw Hne Hparse Hts Hty Hfresh.
  unfold Persistent.checkExistingConnection.
  unfold stored_record in Hraw. rewrite Hraw, Hne, Hparse.
  unfold Date_now. rewrite Hts, Hty. cbn [ToNumber js_sub js_gt snd].
  change (24 * 60 * 60 * 1000) with 86400000.
  destruct (Z.gtb_spec (clock w (reads w) - ts) 86400000) as [Hold | _]; [lia |].
  destruct (silent_verification_outcomes walletType (set_reads (S (reads w)) w))
    as [H | [H | (k & text & _ & _ & H)]]; rewrite H; reflexivity.
Qed.

(** X2. Silent resume. At startup, with a stored unexpired record of one of
    the three wallet types whose provider answers the silent check, and the
    three screens on the page, [init] skips the loading sequence and the
    selection screen: the controller is authenticated with the wallet the
    provider reported, exactly one connected event carrying it is dispatched,
    no step of a loading sequence is scheduled, the record stays stored, the
    loading screen and the selection screen get [display: none], and the main
    content is shown without its [hidden] class. *)
Theorem silent_resume
  (w : world) (raw : string) (data : jsval) (ts : Z) (k : wallet_kind) (text : string) :
  stored_record w = Some raw ->
  String.eqb raw "" = false ->
  JSON_parse (engine w) raw = Some data ->
  get_prop data "timestamp" = Some (JNum (Num ts)) ->
  get_prop data "walletType" = Some (JStr (kind_name k)) ->
  clock w (reads w) - ts <= 86400000 ->
  silently_verified k (win w) text ->
  screens (doc w) ->
  let wallet := {| type := kind_name k; publicKey := text; address := text |} in
  isAuthenticated (Persistent.init w) = true /\
  connectedWallet (Persistent.init w) = Some wallet /\
  events (Persistent.init w) = (events w ++ [walletConnected wallet])%list /\
  loading_timers (Persistent.init w) = loading_timers w /\
  stored_record (Persistent.init w) = Some raw /\
  display <$> loadingScreen (doc (Persistent.init w)) = Some "none" /\
  display <$> authScreen (doc (Persistent.init w)) = Some "none" /\
  has_class "hidden" (authScreen (doc (Persistent.init w))) /\
  display <$> mainContent (doc (Persistent.init w)) = Some "" /\
  lacks_class "hidden" (mainContent (doc (Persistent.init w))).
Proof.
  intros Hraw Hne Hparse Hts Hty Hfresh Hok ([l Hl] & [a Ha] & [m Hm]) wallet.
  unfold Persistent.init.
  rewrite (checkExistingConnection_unexpired w raw data ts (JStr (kind_name k)))
    by assumption.
  rewrite (verifyWalletConnection_succeeds k (snd (Date_now w)) text) by exact Hok.
  fold wallet. unfold Persistent.skipToMainContent. cbn. rewrite Hl, Ha, Hm. cbn.
  rewrite ?Hl, ?Ha, ?Hm. cbn.
  repeat apply conj; try reflexivity.
  - exact Hraw.
  - eexists. split; [reflexivity |]. apply classList_add_has.
  - eexists. split; [reflexivity |]. apply classList_remove_lacks.
Qed.

Lemma silent_resume_witness :
  let w := Persistent.construct None Tour.returning_page in
  isAuthenticated (Persistent.init w) = true /\
  events (Persistent.init w)
  = [walletConnected {| type := "phantom"; publicKey := "9xQe"; address := "9xQe" |}] /\
  loading (Persistent.init w) = false.
Proof.
  intros w.
  destruct (silent_resume w (Sample.print_flat Sample.phantom_record)
              Sample.phantom_record 1000 phantom "9xQe")
    as (Ha & _ & He & Ht & _).
  - vm_compute. reflexivity.
  - vm_compute. reflexivity.
  - vm_compute. reflexivity.
  - vm_compute. reflexivity.
  - vm_compute. reflexivity.
  - vm_compute. discriminate.
  - cbn. eexists _, _, _. repeat split; reflexivity.
  - vm_compute. repeat split; eexists; reflexivity.
  - split; [exact Ha | split; [exact He |]]. vm_compute. reflexivity.
Defined.

Lemma verifyWalletConnection_silent_view (win1 win2 : window) (walletType : jsval) (w : world) :
  silent_view win1 = silent_view win2 ->
  Persistent.verifyWalletConnection walletType (set_win win1 w)
  = (fst (Persistent.verifyWalletConnection walletType (set_win win2 w)),
     set_win win1 (snd (Persistent.verifyWalletConnection walletType (set_win win2 w)))).
Proof.
  unfold silent_view. intros [= Hs He Hf].
  unfold Persistent.verifyWalletConnection, Persistent.verified.
  destruct walletType as [| | | | name | |]; try reflexivity.
  cbn [win set_win].
  destruct (String.eqb name "phantom").
  { destruct (solana win1) as [p1 |], (solana win2) as [p2 |];
      cbn in Hs; try discriminate Hs; [| reflexivity].
    injection Hs as -> ->.
    destruct (isPhantom p2); [| reflexivity].
    destruct (solana_connect_trusted p2) as [r | e |]; try reflexivity.
    destruct (response_key r); reflexivity. }
  destruct (String.eqb name "metamask").
  { destruct (ethereum win1) as [p1 |], (ethereum win2) as [p2 |];
      cbn in He; try discriminate He; [| reflexivity].
    injection He as -> ->.
    destruct (isMetaMask p2); [| reflexivity].
    destruct (eth_accounts p2) as [[[| account rest] |] | e |]; reflexivity. }
  destruct (String.eqb name "solflare"); [| reflexivity].
  destruct (solflare win1) as [p1 |], (solflare win2) as [p2 |];
    cbn in Hf; try discriminate Hf; [| reflexivity].
  injection Hf as -> ->.
  destruct (sf_isConnected p2); [| reflexivity].
  destruct (truthy_key (sf_publicKey p2)); reflexivity.
Qed.

Lemma checkExistingConnection_silent_view (win1 win2 : window) (w : world) :
  silent_view win1 = silent_view win2 ->
  Persistent.checkExistingConnection (set_win win1 w)
  = (fst (Persistent.checkExistingConnection (set_win win2 w)),
     set_win win1 (snd (Persistent.checkExistingConnection (set_win win2 w)))).
Proof.
  intros Hview. unfold Persistent.checkExistingConnection.
  cbn [localStorage engine set_win].
  destruct (localStorage w !! micro_wallet_connection) as [raw |]; [| reflexivity].
  destruct (String.eqb raw ""); [reflexivity |].
  destruct (JSON_parse (engine w) raw) as [data |]; [| reflexivity].
  unfold Date_now. cbn [clock reads set_win].
  destruct (get_prop data "timestamp") as [ts |]; [| reflexivity].
  cbn [engine set_reads set_win].
  destruct (js_gt _ _); [reflexivity |].
  destruct (get_prop data "walletType") as [walletType |]; [| reflexivity].
  change (set_reads (S (reads w)) (set_win win1 w))
    with (set_win win1 (set_reads (S (reads w)) w)).
  change (set_reads (S (reads w)) (set_win win2 w))
    with (set_win win2 (set_reads (S (reads w)) w)).
  rewrite (verifyWalletConnection_silent_view win1 win2 walletType _ Hview).
  destruct (Persistent.verifyWalletConnection walletType
              (set_win win2 (set_reads (S (reads w)) w))) as [[b | e |] w2];
    reflexivity.
Qed.

Lemma startLoadingSequence_set_win (win' : window) (w : world) :
  startLoadingSequence (set_win win' w) = set_win win' (startLoadingSequence w).
Proof.
  unfold startLoadingSequence. cbn [doc set_win].
  destruct (progressBar (doc w)), (loadingPercentage (doc w)),
    (loadingScreen (doc w)), (authScreen (doc w)); try reflexivity.
  unfold updateProgress, Date_now. cbn.
  destruct (Qcompare _ _); reflexivity.
Qed.

Lemma skipToMainContent_set_win (win' : window) (w : world) :
  Persistent.skipToMainContent (set_win win' w)
  = set_win win' (Persistent.skipToMainContent w).
Proof.
  unfold Persistent.skipToMainContent. cbn [doc set_win].
  destruct (loadingScreen (doc w)), (authScreen (doc w)), (mainContent (doc w));
    try reflexivity.
  cbn. destruct (connectedWallet w); reflexivity.
Qed.

(** X3. Startup never prompts. What [init] does depends on the providers only
    through what the silent check reads (Phantom's [isPhantom] and trusted
    connect, MetaMask's [isMetaMask] and permitted accounts, Solflare's
    connected flag and exposed key): two pages whose providers agree on these
    and differ in the outcome of every interactive operation start up
    alike. *)
Theorem startup_never_prompts (win1 win2 : window) (w : world) :
  silent_view win1 = silent_view win2 ->
  Persistent.init (set_win win1 w) = set_win win1 (Persistent.init (set_win win2 w)).
Proof.
  intros Hview. unfold Persistent.init.
  rewrite (checkExistingConnection_silent_view win1 win2 w Hview).
  destruct (Persistent.checkExistingConnection (set_win win2 w)) as [[[|] | e |] w2];
    cbn [fst snd].
  - apply skipToMainContent_set_win.
  - apply startLoadingSequence_set_win.
  - reflexivity.
  - reflexivity.
Qed.

Lemma startup_never_prompts_witness :
  let w := Persistent.construct None Tour.returning_page in
  Persistent.init (set_win Sample.trusting_phantom w)
  = set_win Sample.trusting_phantom
      (Persistent.init (set_win Tour.trusting_phantom_hanging w)).
Proof.
  intros w. apply startup_never_prompts. reflexivity.
Defined.

(** ** A stored session across a reload *)

(** X4. Store, then reload. On an engine whose [JSON.parse] reads back what
    its [JSON.stringify] wrote, the record [storeWalletConnection] stores
    for a wallet at time [t0] is, at the next page load, exactly as old as
    the clock says: up to 86,400,000 ms after [t0] startup hands the stored
    wallet type to silent verification and resolves to what that resolves to;
    later it removes the record and resolves to [false]. *)
Theorem stored_session_round_trip (w0 w : world) (wallet : wallet) :
  let t0 := clock w0 (reads w0) in
  let text := JSON_stringify (engine w0) (Persistent.connectionData wallet t0) in
  JSON_parse (engine w0) text = Some (Persistent.connectionData wallet t0) ->
  String.eqb text "" = false ->
  engine w = engine w0 ->
  localStorage w = localStorage (Persistent.storeWalletConnection wallet w0) ->
  (clock w (reads w) - t0 <= 86400000 ->
   Persistent.checkExistingConnection w
   = Persistent.verifyWalletConnection (JStr (type wallet)) (snd (Date_now w))) /\
  (clock w (reads w) - t0 > 86400000 ->
   Persistent.checkExistingConnection w
   = (Fulfilled false, Persistent.removeItem (snd (Date_now w)))).
Proof.
  intros t0 text Hparse Hne Hengine Hstore.
  assert (Hraw : stored_record w = Some text).
  { unfold stored_record. rewrite Hstore.
    unfold Persistent.storeWalletConnection. cbn. apply lookup_insert_eq. }
  rewrite <- Hengine in Hparse.
  split; intros Hage.
  - apply (checkExistingConnection_unexpired w text
             (Persistent.connectionData wallet t0) t0); auto.
  - apply (checkExistingConnection_expired w text
             (Persistent.connectionData wallet t0) t0); auto.
Qed.

Lemma stored_session_round_trip_witness :
  let wallet := {| type := "phantom"; publicKey := "9xQe"; address := "9xQe" |} in
  let w0 := Sample.startup None Sample.trusting_phantom 1000 in
  let w := Sample.startup (Some (Sample.print_flat Sample.phantom_record))
                          Sample.trusting_phantom 2000 in
  Persistent.checkExistingConnection w
  = Persistent.verifyWalletConnection (JStr "phantom") (snd (Date_now w)).
Proof.
  intros wallet w0 w.
  destruct (stored_session_round_trip w0 w wallet) as [Hfresh _].
  - vm_compute. reflexivity.
  - vm_compute. reflexivity.
  - reflexivity.
  - vm_compute. reflexivity.
  - apply Hfresh. vm_compute. discriminate.
Defined.

(** ** Outcomes of an interactive attempt *)

(** X5. User rejection. When the provider's interactive connect operation
    throws, every adapter fails with the user-rejection error as soon as the
    error's code is 4001, message or no message.  Short of that code, the
    Phantom adapter does so when the message contains "User rejected" and
    the Solflare adapter when it contains "rejected"; the MetaMask adapter
    never reads the message for this and, unless the code is -32002, fails
    with the connection-failed error carrying it. *)
Theorem user_rejection
  (k : wallet_kind) (win : window) (code : option Z) (message : option string) :
  connect_throws k win (Thrown code message) ->
  (code = Some 4001 -> connect (kind_name k) win = Rejected UserRejected) /\
  (forall m, k = phantom -> message = Some m -> includes m "User rejected" = true ->
             connect (kind_name k) win = Rejected UserRejected) /\
  (forall m, k = solflare_kind -> message = Some m -> includes m "rejected" = true ->
             connect (kind_name k) win = Rejected UserRejected) /\
  (k = metamask -> code <> Some 4001 -> code <> Some (-32002) ->
   connect (kind_name k) win = Rejected (ConnectionFailed (message_text message))).
Proof.
  intros Hthrows.
  assert (Hc : connect (kind_name k) win
               = Rejected match k with
                          | phantom => catch_solana "User rejected" (Thrown code message)
                          | solflare_kind => catch_solana "rejected" (Thrown code message)
                          | metamask => catch_metamask (Thrown code message)
                          end).
  { destruct k; cbn in Hthrows.
    - destruct Hthrows as (p & Hp & Hid & Hrej).
      unfold connect, connectPhantom. cbn [kind_name].
      change (String.eqb "phantom" "phantom") with true. cbn iota.
      rewrite Hp, Hid, Hrej. reflexivity.
    - destruct Hthrows as (p & Hp & Hdis & Hrej).
      unfold connect, connectSolflare. cbn [kind_name].
      change (String.eqb "solflare" "phantom") with false.
      change (String.eqb "solflare" "solflare") with true. cbn iota.
      rewrite Hp, Hrej.
      destruct (sf_isConnected p); [| reflexivity].
      destruct (sf_disconnect p); try reflexivity.
      exfalso. apply Hdis; reflexivity.
    - destruct Hthrows as (p & Hp & Hid & Hrej).
      unfold connect, connectMetaMask. cbn [kind_name].
      change (String.eqb "metamask" "phantom") with false.
      change (String.eqb "metamask" "solflare") with false.
      change (String.eqb "metamask" "metamask") with true. cbn iota.
      rewrite Hp, Hid, Hrej. reflexivity. }
  rewrite Hc. repeat apply conj.
  - intros ->. destruct k; reflexivity.
  - intros m -> -> Hm. cbn. destruct (code_is 4001 code); [reflexivity |].
    rewrite Hm. reflexivity.
  - intros m -> -> Hm. cbn. destruct (code_is 4001 code); [reflexivity |].
    rewrite Hm. reflexivity.
  - intros -> H1 H2. cbn.
    destruct code as [c |]; cbn; [| reflexivity].
    destruct (Z.eqb_spec c 4001) as [-> | _]; [contradiction |].
    destruct (Z.eqb_spec c (-32002)) as [-> | _]; [contradiction |].
    reflexivity.
Qed.

Lemma user_rejection_witness :
  connect "phantom" Tour.declining_phantom = Rejected UserRejected.
Proof.
  destruct (user_rejection phantom Tour.declining_phantom (Some 4001) None) as [H _].
  - cbn. eexists. repeat split; reflexivity.
  - apply H. reflexivity.
Defined.

Lemma catch_solana_failure (needle : string) (error : thrown) :
  attempt_failure (catch_solana needle error).
Proof.
  destruct error as [| code message]; cbn; [constructor |].
  destruct (code_is 4001 code); [apply failure_rejected |].
  destruct message as [m |]; [| constructor].
  destruct (includes m needle); [apply failure_rejected | apply failure_connection].
Qed.

Lemma catch_metamask_failure (error : thrown) : attempt_failure (catch_metamask error).
Proof.
  destruct error as [| code message]; cbn; [constructor |].
  destruct (code_is 4001 code); [apply failure_rejected |].
  destruct (code_is (-32002) code); [apply failure_pending | apply failure_connection].
Qed.

Lemma try_catch_Rejected {A : Type} (body : settled thrown A) (handler : thrown -> failure)
  (f : failure) :
  try_catch body handler = Rejected f -> exists error, f = handler error.
Proof.
  destruct body as [a | error |]; cbn; try discriminate.
  intros [= <-]. exists error. reflexivity.
Qed.

Lemma connect_Fulfilled_type (walletType : string) (win : window) (result : wallet) :
  connect walletType win = Fulfilled result ->
  type result = walletType /\ exists k, walletType = kind_name k.
Proof.
  unfold connect.
  destruct (String.eqb_spec walletType "phantom") as [-> | _].
  { unfold connectPhantom. intros H. split; [| exists phantom; reflexivity].
    destruct (solana win) as [p |]; [| discriminate H].
    destruct (isPhantom p); [| discriminate H].
    destruct (solana_connect p) as [r | e |]; try discriminate H.
    destruct (response_key r); [| discriminate H].
    injection H as <-. reflexivity. }
  destruct (String.eqb_spec walletType "solflare") as [-> | _].
  { unfold connectSolflare. intros H. split; [| exists solflare_kind; reflexivity].
    destruct (solflare win) as [p |]; [| discriminate H].
    destruct (if sf_isConnected p then _ else _); try discriminate H;
      (destruct (sf_connect p) as [r | err |]; try discriminate H;
       destruct (solflare_key r p); [| discriminate H];
       injection H as <-; reflexivity). }
  destruct (String.eqb_spec walletType "metamask") as [-> | _]; [| discriminate].
  unfold connectMetaMask. intros H. split; [| exists metamask; reflexivity].
  destruct (ethereum win) as [p |]; [| discriminate H].
  destruct (isMetaMask p); [| discriminate H].
  destruct (eth_requestAccounts p) as [[[| account rest] |] | e |]; try discriminate H.
  injection H as <-. reflexivity.
Qed.

Lemma connect_Fulfilled_result (walletType : string) (win : window) (result : wallet) :
  connect walletType win = Fulfilled result ->
  publicKey result = address result /\ provider_supplied win (address result).
Proof.
  unfold connect.
  destruct (String.eqb walletType "phantom"); [apply connectPhantom_result |].
  destruct (String.eqb walletType "solflare"); [apply connectSolflare_result |].
  destruct (String.eqb walletType "metamask"); [apply connectMetaMask_result |].
  discriminate.
Qed.

(** X6. The outcomes of an interactive attempt are closed.  For every
    requested wallet type and every behaviour of the providers, a failed
    attempt fails with the user-rejection error, the already-pending error,
    a connection-failed error, the engine's TypeError or, for a type that is
    none of the three, the unsupported-type error; a successful attempt
    yields a result whose type is the requested one, which is then one of
    the three names, and whose key and address are one provider-supplied
    string. *)
Theorem attempt_outcomes (walletType : string) (win : window) :
  (forall f, connect walletType win = Rejected f -> attempt_failure f) /\
  (forall result,
      connect walletType win = Fulfilled result ->
      type result = walletType /\
      (exists k, walletType = kind_name k) /\
      publicKey result = address result /\
      provider_supplied win (address result)).
Proof.
  split.
  - intros f. unfold connect.
    destruct (String.eqb walletType "phantom").
    { unfold connectPhantom. intros H. apply try_catch_Rejected in H.
      destruct H as [error ->]. apply catch_solana_failure. }
    destruct (String.eqb walletType "solflare").
    { unfold connectSolflare. intros H. apply try_catch_Rejected in H.
      destruct H as [error ->]. apply catch_solana_failure. }
    destruct (String.eqb walletType "metamask").
    { unfold connectMetaMask. intros H. apply try_catch_Rejected in H.
      destruct H as [error ->]. apply catch_metamask_failure. }
    intros [= <-]. apply failure_unsupported.
  - intros result H.
    destruct (connect_Fulfilled_type walletType win result H) as [Ht Hk].
    destruct (connect_Fulfilled_result walletType win result H) as [He Hs].
    auto.
Qed.

(** X7. A wallet that [detectWallets] reports as not detected (its provider
    object is missing, or [window.solana] is not Phantom, or
    [window.ethereum] is not MetaMask) can be neither connected nor resumed:
    the interactive attempt fails with the provider-not-found error whatever
    the object in its place would answer, and silent verification of that
    wallet type resolves to [false] and changes nothing. *)
Theorem undetected_wallet_unusable (k : wallet_kind) (w : world) :
  detected k (win w) = false ->
  connect (kind_name k) (win w) = Rejected (ProviderNotFound k) /\
  Persistent.verifyWalletConnection (JStr (kind_name k)) w = (Fulfilled false, w).
Proof.
  intros Hno. split.
  - destruct k; cbn in Hno.
    + unfold connect, connectPhantom. cbn.
      destruct (solana (win w)) as [p |]; [| reflexivity]. rewrite Hno. reflexivity.
    + unfold connect, connectSolflare. cbn.
      destruct (solflare (win w)) as [p |]; [discriminate Hno | reflexivity].
    + unfold connect, connectMetaMask. cbn.
      destruct (ethereum (win w)) as [p |]; [| reflexivity]. rewrite Hno. reflexivity.
  - apply verifyWalletConnection_fails.
    destruct k; cbn in Hno |- *.
    + destruct (solana (win w)) as [p |]; [left; exact Hno | exact I].
    + destruct (solflare (win w)) as [p |]; [discriminate Hno | exact I].
    + destruct (ethereum (win w)) as [p |]; [left; exact Hno | exact I].
Qed.

Lemma undetected_wallet_unusable_witness :
  let w := Sample.startup None Tour.other_solana_wallet 5000 in
  connect "phantom" (win w) = Rejected (ProviderNotFound phantom).
Proof.
  intros w. apply (undetected_wallet_unusable phantom w). reflexivity.
Defined.

(** ** Wallet cards *)

Lemma set_card_compose (walletType : string) (f g : card -> card) (d : document) :
  set_card walletType f (set_card walletType g d) = set_card walletType (f ∘ g) d.
Proof. unfold set_card. cbn. rewrite alter_alter_eq. reflexivity. Qed.

Lemma set_card_id (walletType : string) (f : card -> card) (d : document) :
  (forall c, cards d !! walletType = Some c -> f c = c) ->
  set_card walletType f d = d.
Proof.
  intros Hid. unfold set_card. rewrite alter_id by exact Hid.
  destruct d; reflexivity.
Qed.

Lemma connectWallet_Rejected (walletType : string) (w : world) (button : card) (f : failure) :
  cards (doc w) !! walletType = Some button ->
  connect walletType (win w) = Rejected f ->
  Persistent.connectWallet walletType w
  = setTimeout (cb_resetCard walletType (walletName button) (connectText button)) 3000
      (set_doc (set_card walletType (card_error ∘ card_busy)) w) /\
  Legacy.connectWallet walletType w = Persistent.connectWallet walletType w.
Proof.
  intros Hcard Hf. unfold Persistent.connectWallet, Legacy.connectWallet.
  rewrite Hcard. cbn [win set_doc]. rewrite Hf.
  split; [| reflexivity].
  unfold setTimeout, set_doc, set_timers. cbn.
  rewrite set_card_compose. reflexivity.
Qed.

(** X8. A failed attempt is undone.  When the attempt from a wallet card
    fails, whatever the failure, both controllers put that card in the error
    state (labels CONNECTION FAILED and ERROR, still disabled) and schedule
    one reset after 3000 ms; they leave local storage, the session fields
    and the events as they were.  When that timer fires the card has its
    original two labels back, is enabled and has its inline styles cleared:
    a card that was enabled and unstyled before the click is exactly as it
    was, and so is the whole page. *)
Theorem failed_attempt_is_undone
  (walletType : string) (w : world) (button : card) (f : failure) :
  cards (doc w) !! walletType = Some button ->
  connect walletType (win w) = Rejected f ->
  let reset := cb_resetCard walletType (walletName button) (connectText button) in
  let w1 := Persistent.connectWallet walletType w in
  let w2 := Persistent.fire reset w1 in
  Legacy.connectWallet walletType w = w1 /\
  Legacy.fire reset w1 = w2 /\
  timers w1 = (timers w ++ [(3000, reset)])%list /\
  cards (doc w1) !! walletType = Some (card_error (card_busy button)) /\
  disabled (card_error (card_busy button)) = true /\
  localStorage w2 = localStorage w /\
  isAuthenticated w2 = isAuthenticated w /\
  connectedWallet w2 = connectedWallet w /\
  events w2 = events w /\
  cards (doc w2) !! walletType
  = Some (card_reset (walletName button) (connectText button) button) /\
  (card_reset (walletName button) (connectText button) button = button ->
   doc w2 = doc w).
Proof.
  intros Hcard Hf reset w1 w2.
  destruct (connectWallet_Rejected walletType w button f Hcard Hf) as [Hp Hl].
  subst w2 w1. rewrite Hl, Hp.
  repeat apply conj; try reflexivity.
  - cbn. rewrite lookup_alter_eq, Hcard. reflexivity.
  - cbn. rewrite !lookup_alter_eq, Hcard. reflexivity.
  - intros Hidle.
    change (set_card walletType (card_reset (walletName button) (connectText button))
              (set_card walletType (card_error ∘ card_busy) (doc w)) = doc w).
    rewrite set_card_compose. apply set_card_id.
    intros c Hc. rewrite Hcard in Hc. injection Hc as <-. exact Hidle.
Qed.

Lemma failed_attempt_is_undone_witness :
  let w := Sample.startup None Tour.declining_phantom 5000 in
  let w1 := Persistent.connectWallet "phantom" w in
  walletName <$> cards (doc w1) !! "phantom" = Some "CONNECTION FAILED" /\
  doc (Persistent.fire (cb_resetCard "phantom" "PHANTOM" "CONNECT") w1) = doc w.
Proof.
  intros w w1.
  destruct (failed_attempt_is_undone "phantom" w (Sample.idle "PHANTOM") UserRejected)
    as (_ & _ & _ & Hc & _ & _ & _ & _ & _ & _ & Hd).
  - vm_compute. reflexivity.
  - vm_compute. reflexivity.
  - split.
    + subst w1. rewrite Hc. reflexivity.
    + apply Hd. reflexivity.
Defined.

(** ** One step of a running controller *)

Lemma persistent_fire_fields (cb : callback) (w : world) :
  localStorage (Persistent.fire cb w) = localStorage w /\
  events (Persistent.fire cb w) = events w /\
  isAuthenticated (Persistent.fire cb w) = isAuthenticated w /\
  connectedWallet (Persistent.fire cb w) = connectedWallet w /\
  exists new, timers (Persistent.fire cb w) = (timers w ++ new)%list /\
              (length new <= 1)%nat.
Proof.
  destruct cb; open_operations; split_branches; repeat apply conj; try reflexivity;
    grew_by_at_most_one.
Qed.

Lemma legacy_fire_fields (cb : callback) (w : world) :
  localStorage (Legacy.fire cb w) = localStorage w /\
  events (Legacy.fire cb w) = events w /\
  isAuthenticated (Legacy.fire cb w) = isAuthenticated w /\
  connectedWallet (Legacy.fire cb w) = connectedWallet w /\
  exists new, timers (Legacy.fire cb w) = (timers w ++ new)%list /\
              (length new <= 1)%nat.
Proof.
  destruct cb; open_operations; split_branches; repeat apply conj; try reflexivity;
    grew_by_at_most_one.
Qed.

Lemma persistent_forceReauth_fields (w : world) :
  localStorage (Persistent.forceReauth w) = delete micro_wallet_connection (localStorage w) /\
  events (Persistent.forceReauth w) = (events w ++ [walletDisconnected])%list /\
  isAuthenticated (Persistent.forceReauth w) = false /\
  connectedWallet (Persistent.forceReauth w) = None /\
  exists new, timers (Persistent.forceReauth w) = (timers w ++ new)%list /\
              (length new <= 1)%nat.
Proof.
  open_operations; split_branches; repeat apply conj; try reflexivity;
    grew_by_at_most_one.
Qed.

Lemma legacy_forceReauth_fields (w : world) :
  localStorage (Legacy.forceReauth w) = localStorage w /\
  events (Legacy.forceReauth w) = events w /\
  isAuthenticated (Legacy.forceReauth w) = false /\
  connectedWallet (Legacy.forceReauth w) = None /\
  exists new, timers (Legacy.forceReauth w) = (timers w ++ new)%list /\
              (length new <= 1)%nat.
Proof.
  open_operations; split_branches; repeat apply conj; try reflexivity;
    grew_by_at_most_one.
Qed.

Lemma persistent_connectWallet_fields (walletType : string) (w : world) :
  let w' := Persistent.connectWallet walletType w in
  (exists wallet,
      connect walletType (win w) = Fulfilled wallet /\
      isAuthenticated w' = true /\
      connectedWallet w' = Some wallet /\
      events w' = (events w ++ [walletConnected wallet])%list /\
      timers w' = (timers w ++ [(1500, cb_transitionToMainContent)])%list /\
      localStorage w'
      = <[ micro_wallet_connection :=
             JSON_stringify (engine w)
               (Persistent.connectionData wallet (clock w (reads w))) ]> (localStorage w)) \/
  (isAuthenticated w' = isAuthenticated w /\
   connectedWallet w' = connectedWallet w /\
   events w' = events w /\
   localStorage w' = localStorage w /\
   exists new, timers w' = (timers w ++ new)%list /\ (length new <= 1)%nat).
Proof.
  intros w'. subst w'. unfold Persistent.connectWallet.
  destruct (cards (doc w) !! walletType) as [button |].
  - cbn [win set_doc].
    destruct (connect walletType (win w)) as [wallet | f |] eqn:Hc.
    + left. exists wallet. repeat apply conj; reflexivity.
    + right. cbn. repeat apply conj; try reflexivity. grew_by_at_most_one.
    + right. cbn. repeat apply conj; try reflexivity. grew_by_at_most_one.
  - right. repeat apply conj; try reflexivity. grew_by_at_most_one.
Qed.

Lemma legacy_connectWallet_fields (walletType : string) (w : world) :
  let w' := Legacy.connectWallet walletType w in
  localStorage w' = localStorage w /\
  ((exists wallet,
       connect walletType (win w) = Fulfilled wallet /\
       isAuthenticated w' = true /\
       connectedWallet w' = Some wallet /\
       events w' = (events w ++ [walletConnected wallet])%list /\
       timers w' = (timers w ++ [(1500, cb_transitionToMainContent)])%list) \/
   (isAuthenticated w' = isAuthenticated w /\
    connectedWallet w' = connectedWallet w /\
    events w' = events w /\
    exists new, timers w' = (timers w ++ new)%list /\ (length new <= 1)%nat)).
Proof.
  intros w'. subst w'. unfold Legacy.connectWallet.
  destruct (cards (doc w) !! walletType) as [button |].
  - cbn [win set_doc].
    destruct (connect walletType (win w)) as [wallet | f |] eqn:Hc.
    + split; [reflexivity |]. left. exists wallet. repeat apply conj; reflexivity.
    + split; [reflexivity |]. right. cbn.
      repeat apply conj; try reflexivity. grew_by_at_most_one.
    + split; [reflexivity |]. right. cbn.
      repeat apply conj; try reflexivity. grew_by_at_most_one.
  - split; [reflexivity |]. right. repeat apply conj; try reflexivity.
    grew_by_at_most_one.
Qed.

Lemma run_invariant (step : action -> world -> world) (P : world -> Prop) :
  (forall a w, P w -> P (step a w)) ->
  forall acts w, P w -> P (run step acts w).
Proof.
  intros Hstep acts. unfold run.
  induction acts as [| a acts IH]; intros w Hw; cbn; [exact Hw |].
  apply IH. apply Hstep. exact Hw.
Qed.

(** ** Startup, in all its cases *)

Lemma checkExistingConnection_outcomes (w : world) :
  (exists w1, Persistent.checkExistingConnection w = (Fulfilled false, w1) /\
              (w1 = w \/ w1 = snd (Date_now w))) \/
  (exists w1, Persistent.checkExistingConnection w = (Fulfilled false, Persistent.removeItem w1) /\
              (w1 = w \/ w1 = snd (Date_now w))) \/
  Persistent.checkExistingConnection w = (Pending, snd (Date_now w)) \/
  (exists k text,
      silently_verified k (win w) text /\
      is_Some (stored_record w) /\
      Persistent.checkExistingConnection w
      = (Fulfilled true,
         set_session true
           (Some {| type := kind_name k; publicKey := text; address := text |})
           (snd (Date_now w)))).
Proof.
  unfold Persistent.checkExistingConnection, stored_record, Persistent.discard.
  destruct (localStorage w !! micro_wallet_connection) as [raw |] eqn:Hraw;
    [| left; exists w; auto].
  destruct (String.eqb raw ""); [left; exists w; auto |].
  destruct (JSON_parse (engine w) raw) as [data |];
    [| right; left; exists w; auto].
  unfold Date_now. cbn [snd].
  destruct (get_prop data "timestamp") as [ts |];
    [| right; left; eexists; split; [reflexivity | right; reflexivity]].
  destruct (js_gt _ _);
    [right; left; eexists; split; [reflexivity | right; reflexivity] |].
  destruct (get_prop data "walletType") as [walletType |];
    [| right; left; eexists; split; [reflexivity | right; reflexivity]].
  destruct (silent_verification_outcomes walletType (set_reads (S (reads w)) w))
    as [H | [H | (k & text & _ & Hok & H)]]; rewrite H.
  - left. eexists. split; [reflexivity | right; reflexivity].
  - right. right. left. reflexivity.
  - right. right. right. exists k, text.
    split; [exact Hok |]. split; [eexists; reflexivity | reflexivity].
Qed.

Lemma startLoadingSequence_timers (w : world) :
  exists new, timers (startLoadingSequence w) = (timers w ++ new)%list /\
              (length new <= 1)%nat.
Proof. open_operations; split_branches; grew_by_at_most_one. Qed.

Lemma persistent_init_fields (w : world) :
  let w' := Persistent.init w in
  (forall key, key <> micro_wallet_connection ->
               localStorage w' !! key = localStorage w !! key) /\
  ((exists k text,
       let wallet := {| type := kind_name k; publicKey := text; address := text |} in
       silently_verified k (win w) text /\
       isAuthenticated w' = true /\
       connectedWallet w' = Some wallet /\
       localStorage w' = localStorage w /\
       is_Some (stored_record w) /\
       timers w' = timers w /\
       (events w' = events w \/
        events w' = (events w ++ [walletConnected wallet])%list)) \/
   (isAuthenticated w' = isAuthenticated w /\
    connectedWallet w' = connectedWallet w /\
    events w' = events w /\
    exists new, timers w' = (timers w ++ new)%list /\ (length new <= 1)%nat)).
Proof.
  intros w'. subst w'. unfold Persistent.init.
  destruct (checkExistingConnection_outcomes w)
    as [(w1 & -> & Hw1) | [(w1 & -> & Hw1) | [-> | (k & text & Hok & Hrec & ->)]]].
  - destruct (startLoadingSequence_frame w1) as (Hs & He & Ha & Hc & _).
    destruct (startLoadingSequence_timers w1) as (new & Ht & Hn).
    rewrite Hs, He, Ha, Hc, Ht.
    split; [intros key _; destruct Hw1 as [-> | ->]; reflexivity |].
    right. destruct Hw1 as [-> | ->]; repeat apply conj; try reflexivity;
      exists new; auto.
  - destruct (startLoadingSequence_frame (Persistent.removeItem w1))
      as (Hs & He & Ha & Hc & _).
    destruct (startLoadingSequence_timers (Persistent.removeItem w1)) as (new & Ht & Hn).
    rewrite Hs, He, Ha, Hc, Ht.
    split.
    + intros key Hkey. cbn. rewrite lookup_delete_ne by congruence.
      destruct Hw1 as [-> | ->]; reflexivity.
    + right. destruct Hw1 as [-> | ->]; repeat apply conj; try reflexivity;
        exists new; auto.
  - split; [intros key _; reflexivity |].
    right. repeat apply conj; try reflexivity. grew_by_at_most_one.
  - split.
    + intros key _. open_operations; split_branches; reflexivity.
    + left. exists k, text. cbn zeta. split; [exact Hok |].
      open_operations; split_branches; repeat apply conj; auto.
Qed.

(** ** Invariants of a session *)

Lemma session_consistent_same (w w' : world) :
  isAuthenticated w' = isAuthenticated w ->
  connectedWallet w' = connectedWallet w ->
  session_consistent w -> session_consistent w'.
Proof. unfold session_consistent. intros -> ->. auto. Qed.

Lemma session_consistent_signed_in (w : world) (wallet : wallet) :
  isAuthenticated w = true ->
  connectedWallet w = Some wallet ->
  publicKey wallet = address wallet ->
  session_consistent w.
Proof.
  unfold session_consistent. intros -> -> Heq. split.
  - split; [eexists; reflexivity | reflexivity].
  - intros wallet' [= <-]. exact Heq.
Qed.

Lemma session_consistent_signed_out (w : world) :
  isAuthenticated w = false -> connectedWallet w = None -> session_consistent w.
Proof.
  unfold session_consistent. intros -> ->. split.
  - split; [discriminate | intros [x Hx]; discriminate Hx].
  - discriminate.
Qed.

Lemma well_formed_since_same (browser w w' : world) :
  isAuthenticated w' = isAuthenticated w ->
  connectedWallet w' = connectedWallet w ->
  events w' = events w ->
  well_formed_since browser w -> well_formed_since browser w'.
Proof.
  intros Ha Hc He [Hs Hev]. split.
  - eapply session_consistent_same; eassumption.
  - rewrite He. exact Hev.
Qed.

Lemma well_formed_since_event (browser w w' : world) (e : event) :
  session_consistent w' ->
  events w' = (events w ++ [e])%list ->
  event_consistent e ->
  well_formed_since browser w -> well_formed_since browser w'.
Proof.
  intros Hs He Hok [_ (new & Hnew & Hall)]. split; [exact Hs |].
  exists (new ++ [e])%list. split.
  - rewrite He, Hnew. symmetry. apply app_assoc.
  - apply Forall_app. split; [exact Hall |]. constructor; [exact Hok | constructor].
Qed.

Lemma persistent_step_well_formed (browser : world) (a : action) (w : world) :
  well_formed_since browser w -> well_formed_since browser (persistent_step a w).
Proof.
  intros Hw. destruct a as [walletType | | cb | win']; cbn.
  - destruct (persistent_connectWallet_fields walletType w)
      as [(wallet & Hc & Ha & Hcw & He & _) | (Ha & Hcw & He & _)].
    + destruct (connect_Fulfilled_result _ _ _ Hc) as [Heq _].
      eapply well_formed_since_event; [| exact He | exact Heq | exact Hw].
      eapply session_consistent_signed_in; eassumption.
    + eapply well_formed_since_same; eassumption.
  - destruct (persistent_forceReauth_fields w) as (_ & He & Ha & Hcw & _).
    eapply well_formed_since_event; [| exact He | exact I | exact Hw].
    apply session_consistent_signed_out; assumption.
  - destruct (persistent_fire_fields cb w) as (_ & He & Ha & Hcw & _).
    eapply well_formed_since_same; eassumption.
  - eapply well_formed_since_same; [| | | exact Hw]; reflexivity.
Qed.

Lemma legacy_step_well_formed (browser : world) (a : action) (w : world) :
  well_formed_since browser w -> well_formed_since browser (legacy_step a w).
Proof.
  intros Hw. destruct a as [walletType | | cb | win']; cbn.
  - destruct (legacy_connectWallet_fields walletType w)
      as (_ & [(wallet & Hc & Ha & Hcw & He & _) | (Ha & Hcw & He & _)]).
    + destruct (connect_Fulfilled_result _ _ _ Hc) as [Heq _].
      eapply well_formed_since_event; [| exact He | exact Heq | exact Hw].
      eapply session_consistent_signed_in; eassumption.
    + eapply well_formed_since_same; eassumption.
  - destruct (legacy_forceReauth_fields w) as (_ & He & Ha & Hcw & _).
    destruct Hw as [_ Hev]. split.
    + apply session_consistent_signed_out; assumption.
    + rewrite He. exact Hev.
  - destruct (legacy_fire_fields cb w) as (_ & He & Ha & Hcw & _).
    eapply well_formed_since_same; eassumption.
  - eapply well_formed_since_same; [| | | exact Hw]; reflexivity.
Qed.

Lemma well_formed_since_refl (browser w : world) :
  session_consistent w -> events w = events browser -> well_formed_since browser w.
Proof.
  intros Hs He. split; [exact Hs |].
  exists []. split; [rewrite He; symmetry; apply app_nil_r | constructor].
Qed.

Lemma persistent_start_well_formed (options : option Q) (browser : world) :
  well_formed_since browser (Persistent.init (Persistent.construct options browser)).
Proof.
  set (c := Persistent.construct options browser).
  assert (Hc : well_formed_since browser c).
  { apply well_formed_since_refl; [| reflexivity].
    apply session_consistent_signed_out; reflexivity. }
  destruct (persistent_init_fields c)
    as [_ [(k & text & _ & Ha & Hcw & _ & _ & _ & [He | He]) | (Ha & Hcw & He & _)]].
  - destruct Hc as [_ Hev]. split.
    + eapply session_consistent_signed_in; [exact Ha | exact Hcw | reflexivity].
    + rewrite He. exact Hev.
  - eapply well_formed_since_event; [| exact He | reflexivity | exact Hc].
    eapply session_consistent_signed_in; [exact Ha | exact Hcw | reflexivity].
  - eapply well_formed_since_same; eassumption.
Qed.

Lemma legacy_start_well_formed (options : option Q) (browser : world) :
  well_formed_since browser (Legacy.init (Legacy.construct options browser)).
Proof.
  set (c := Legacy.construct options browser). unfold Legacy.init.
  destruct (startLoadingSequence_frame c) as (_ & He & Ha & Hcw & _).
  eapply well_formed_since_same; [exact Ha | exact Hcw | exact He |].
  apply well_formed_since_refl; [| reflexivity].
  apply session_consistent_signed_out; reflexivity.
Qed.

(** X9. The session fields stay consistent.  After a page load and any
    sequence of clicks on wallet cards, [forceReauth] calls, timers firing and
    provider changes, in both controllers: [isAuthenticated] is true exactly
    when [connectedWallet] holds a wallet, that wallet's [publicKey] equals
    its [address], and every connected event dispatched since the page load
    carries a wallet with that same equality. *)
Theorem session_stays_consistent
  (options : option Q) (browser : world) (acts : list action) :
  well_formed_since browser (persistent_session options browser acts) /\
  well_formed_since browser (legacy_session options browser acts).
Proof.
  unfold persistent_session, legacy_session. split.
  - apply (run_invariant persistent_step (well_formed_since browser)).
    + apply persistent_step_well_formed.
    + apply persistent_start_well_formed.
  - apply (run_invariant legacy_step (well_formed_since browser)).
    + apply legacy_step_well_formed.
    + apply legacy_start_well_formed.
Qed.

Lemma persistent_step_keeps_record (a : action) (w : world) :
  (isAuthenticated w = true -> is_Some (stored_record w)) ->
  isAuthenticated (persistent_step a w) = true ->
  is_Some (stored_record (persistent_step a w)).
Proof.
  intros Hw. destruct a as [walletType | | cb | win']; cbn.
  - destruct (persistent_connectWallet_fields walletType w)
      as [(wallet & _ & _ & _ & _ & _ & Hs) | (Ha & _ & _ & Hs & _)].
    + intros _. unfold stored_record. rewrite Hs, lookup_insert_eq. eexists; reflexivity.
    + rewrite Ha. unfold stored_record. rewrite Hs. exact Hw.
  - destruct (persistent_forceReauth_fields w) as (_ & _ & Ha & _).
    rewrite Ha. discriminate.
  - destruct (persistent_fire_fields cb w) as (Hs & _ & Ha & _).
    rewrite Ha. unfold stored_record. rewrite Hs. exact Hw.
  - exact Hw.
Qed.

(** X10. Authenticated means stored.  In the controller with session
    persistence, after a page load and any sequence of clicks, [forceReauth]
    calls, timers and provider changes, an authenticated controller has a
    session record in local storage, as long as no [forceReauth] is called
    while the silent check of startup is still waiting for its provider, and
    local storage is written by this controller only and accepts its
    writes. *)
Theorem authenticated_has_record
  (options : option Q) (browser : world) (acts : list action) :
  isAuthenticated (persistent_session options browser acts) = true ->
  is_Some (stored_record (persistent_session options browser acts)).
Proof.
  unfold persistent_session.
  apply (run_invariant persistent_step
           (fun w => isAuthenticated w = true -> is_Some (stored_record w))).
  - apply persistent_step_keeps_record.
  - set (c := Persistent.construct options browser).
    destruct (persistent_init_fields c)
      as [_ [(k & text & _ & _ & _ & Hs & Hrec & _) | (Ha & _)]].
    + intros _. unfold stored_record. rewrite Hs. exact Hrec.
    + rewrite Ha. cbn. discriminate.
Qed.

Lemma authenticated_has_record_witness :
  is_Some (stored_record
             (persistent_session None Tour.fresh_page
                [Click "phantom"; Timer cb_transitionToMainContent;
                 Timer cb_showMainContent])).
Proof.
  apply authenticated_has_record. vm_compute. reflexivity.
Defined.

Lemma persistent_step_storage (a : action) (w : world) (key : string) :
  key <> micro_wallet_connection ->
  localStorage (persistent_step a w) !! key = localStorage w !! key.
Proof.
  intros Hkey. destruct a as [walletType | | cb | win']; cbn.
  - destruct (persistent_connectWallet_fields walletType w)
      as [(wallet & _ & _ & _ & _ & _ & Hs) | (_ & _ & _ & Hs & _)]; rewrite Hs.
    + apply lookup_insert_ne. congruence.
    + reflexivity.
  - destruct (persistent_forceReauth_fields w) as (Hs & _). rewrite Hs.
    apply lookup_delete_ne. congruence.
  - destruct (persistent_fire_fields cb w) as (Hs & _). rewrite Hs. reflexivity.
  - reflexivity.
Qed.

Lemma legacy_step_storage (a : action) (w : world) :
  localStorage (legacy_step a w) = localStorage w.
Proof.
  destruct a as [walletType | | cb | win']; cbn.
  - destruct (legacy_connectWallet_fields walletType w) as [Hs _]. exact Hs.
  - destruct (legacy_forceReauth_fields w) as (Hs & _). exact Hs.
  - destruct (legacy_fire_fields cb w) as (Hs & _). exact Hs.
  - reflexivity.
Qed.

(** X11. Local storage is touched at one key only.  Through a page load and
    any sequence of clicks, [forceReauth] calls, timers and provider changes,
    the controller with session persistence leaves every key of local
    storage other than [micro_wallet_connection] as it found it, and the
    controller without persistence leaves local storage as a whole as it
    found it. *)
Theorem storage_is_touched_at_one_key
  (options : option Q) (browser : world) (acts : list action) :
  (forall key, key <> micro_wallet_connection ->
               localStorage (persistent_session options browser acts) !! key
               = localStorage browser !! key) /\
  localStorage (legacy_session options browser acts) = localStorage browser.
Proof.
  unfold persistent_session, legacy_session. split.
  - intros key Hkey.
    apply (run_invariant persistent_step
             (fun w => localStorage w !! key = localStorage browser !! key)).
    + intros a w Hw. rewrite persistent_step_storage by exact Hkey. exact Hw.
    + destruct (persistent_init_fields (Persistent.construct options browser)) as [Hs _].
      rewrite Hs by exact Hkey. reflexivity.
  - apply (run_invariant legacy_step (fun w => localStorage w = localStorage browser)).
    + intros a w Hw. rewrite legacy_step_storage. exact Hw.
    + unfold Legacy.init.
      destruct (startLoadingSequence_frame (Legacy.construct options browser)) as [Hs _].
      rewrite Hs. reflexivity.
Qed.

Lemma run_grows {A : Type} (field : world -> list A) (step : action -> world -> world) :
  (forall a w, exists new, field (step a w) = (field w ++ new)%list /\
                           (length new <= 1)%nat) ->
  forall acts w, exists later, field (run step acts w) = (field w ++ later)%list /\
                               (length later <= length acts)%nat.
Proof.
  intros Hstep acts. unfold run.
  induction acts as [| a acts IH]; intros w; cbn.
  - exists []. split; [symmetry; apply app_nil_r | cbn; lia].
  - destruct (Hstep a w) as (new & Hnew & Hn).
    destruct (IH (step a w)) as (later & Hlater & Hl).
    exists (new ++ later)%list. split.
    + rewrite Hlater, Hnew. symmetry. apply app_assoc.
    + rewrite length_app. lia.
Qed.

Lemma persistent_step_grows (a : action) (w : world) :
  (exists new, timers (persistent_step a w) = (timers w ++ new)%list /\
               (length new <= 1)%nat) /\
  (exists new, events (persistent_step a w) = (events w ++ new)%list /\
               (length new <= 1)%nat).
Proof.
  destruct a as [walletType | | cb | win']; cbn.
  - destruct (persistent_connectWallet_fields walletType w)
      as [(wallet & _ & _ & _ & He & Ht & _) | (_ & _ & He & _ & Ht)];
      rewrite He; split; try exact Ht; rewrite ?Ht; grew_by_at_most_one.
  - destruct (persistent_forceReauth_fields w) as (_ & He & _ & _ & Ht).
    rewrite He. split; [exact Ht | grew_by_at_most_one].
  - destruct (persistent_fire_fields cb w) as (_ & He & _ & _ & Ht).
    rewrite He. split; [exact Ht | grew_by_at_most_one].
  - split; grew_by_at_most_one.
Qed.

Lemma legacy_step_grows (a : action) (w : world) :
  (exists new, timers (legacy_step a w) = (timers w ++ new)%list /\
               (length new <= 1)%nat) /\
  (exists new, events (legacy_step a w) = (events w ++ new)%list /\
               (length new <= 1)%nat).
Proof.
  destruct a as [walletType | | cb | win']; cbn.
  - destruct (legacy_connectWallet_fields walletType w)
      as (_ & [(wallet & _ & _ & _ & He & Ht) | (_ & _ & He & Ht)]);
      rewrite He; split; try exact Ht; rewrite ?Ht; grew_by_at_most_one.
  - destruct (legacy_forceReauth_fields w) as (_ & He & _ & _ & Ht).
    rewrite He. split; [exact Ht | grew_by_at_most_one].
  - destruct (legacy_fire_fields cb w) as (_ & He & _ & _ & Ht).
    rewrite He. split; [exact Ht | grew_by_at_most_one].
  - split; grew_by_at_most_one.
Qed.

(** X12. Nothing is cancelled.  In both controllers, no click, [forceReauth]
    call or firing timer ever removes a scheduled callback or a dispatched
    event: over any sequence of such steps the scheduled callbacks and the
    dispatched events only grow at their end, each by at most one per step.
    In particular a [forceReauth] leaves every callback that was pending
    before it, a running progress loop included. *)
Theorem nothing_is_cancelled (acts : list action) (w : world) :
  (exists later, timers (run persistent_step acts w) = (timers w ++ later)%list /\
                 (length later <= length acts)%nat) /\
  (exists later, events (run persistent_step acts w) = (events w ++ later)%list /\
                 (length later <= length acts)%nat) /\
  (exists later, timers (run legacy_step acts w) = (timers w ++ later)%list /\
                 (length later <= length acts)%nat) /\
  (exists later, events (run legacy_step acts w) = (events w ++ later)%list /\
                 (length later <= length acts)%nat).
Proof.
  repeat apply conj.
  - apply (run_grows timers). intros a w'. apply persistent_step_grows.
  - apply (run_grows events). intros a w'. apply persistent_step_grows.
  - apply (run_grows timers). intros a w'. apply legacy_step_grows.
  - apply (run_grows events). intros a w'. apply legacy_step_grows.
Qed.

Lemma startLoadingSequence_schedules (w : world) :
  loading_elements (doc w) ->
  exists t, timers (startLoadingSequence w) = (timers w ++ [t])%list /\
            is_loading_timer t = true.
Proof.
  intros ([b Hb] & [t Ht] & [l Hl] & [a Ha]).
  unfold startLoadingSequence. rewrite Hb, Ht, Hl, Ha.
  open_operations. split_branches; eexists; split; reflexivity.
Qed.

Lemma loading_timers_app (w w' : world) (t : Z * callback) :
  timers w' = (timers w ++ [t])%list -> is_loading_timer t = true ->
  loading_timers w' = S (loading_timers w).
Proof.
  intros Ht Hl. unfold loading_timers. rewrite Ht, List.filter_app, length_app.
  cbn. rewrite Hl. cbn. lia.
Qed.

(** X13. [forceReauth] adds a progress loop and stops none.  On a page with
    the three screens and the progress elements, after [forceReauth] one
    more step of a loading sequence is scheduled than before, in both
    controllers: called while a loading sequence is still running, it leaves
    two of them writing the progress indicator. *)
Theorem forceReauth_adds_a_progress_loop (w : world) :
  screens (doc w) ->
  is_Some (progressBar (doc w)) ->
  is_Some (loadingPercentage (doc w)) ->
  loading_timers (Persistent.forceReauth w) = S (loading_timers w) /\
  loading_timers (Legacy.forceReauth w) = S (loading_timers w).
Proof.
  intros ([l Hl] & [a Ha] & [m Hm]) [b Hb] [t Ht].
  split.
  - unfold Persistent.forceReauth. cbn. rewrite Hl, Ha, Hm. cbn. rewrite Hb, Ht.
    match goal with
    | |- loading_timers (startLoadingSequence ?w0) = _ =>
        destruct (startLoadingSequence_schedules w0) as (t' & Hts & Hlt)
    end.
    + unfold loading_elements. cbn. rewrite Hl, Ha, Hb, Ht.
      repeat split; eexists; reflexivity.
    + eapply loading_timers_app; [| exact Hlt]. rewrite Hts. reflexivity.
  - unfold Legacy.forceReauth. cbn. rewrite Hl, Ha, Hm.
    match goal with
    | |- loading_timers (startLoadingSequence ?w0) = _ =>
        destruct (startLoadingSequence_schedules w0) as (t' & Hts & Hlt)
    end.
    + unfold loading_elements. cbn. rewrite Hl, Ha, Hb, Ht.
      repeat split; eexists; reflexivity.
    + eapply loading_timers_app; [| exact Hlt]. rewrite Hts. reflexivity.
Qed.

Lemma forceReauth_adds_a_progress_loop_witness :
  let w := Persistent.init (Persistent.construct None Tour.fresh_page) in
  loading_timers w = 1%nat /\
  loading_timers (Persistent.forceReauth w) = 2%nat.
Proof.
  intros w.
  destruct (forceReauth_adds_a_progress_loop w) as [Hp _].
  - vm_compute. repeat split; eexists; reflexivity.
  - vm_compute. eexists; reflexivity.
  - vm_compute. eexists; reflexivity.
  - split; [vm_compute; reflexivity |]. rewrite Hp. vm_compute. reflexivity.
Defined.

(** ** The loading sequence from start to end *)

Local Open Scope Q_scope.

Lemma round_compat (h : host) (x y : Q) :
  (forall a b, a <= b -> round h a <= round h b) ->
  x == y -> round h x == round h y.
Proof.
  intros Hmono Hxy. apply Qle_antisym; apply Hmono; rewrite Hxy; apply Qle_refl.
Qed.

Lemma progress_at_nonnegative (h : host) (d : Q) (e : Z) :
  0 < d ->
  (forall a b, a <= b -> round h a <= round h b) ->
  round h 0 == 0 ->
  (0 <= e)%Z ->
  0 <= progress_at h d e.
Proof.
  intros Hd Hmono H0 He. unfold progress_at.
  assert (Hq : 0 <= round h (inject_Z e / d)).
  { apply Qle_trans with (round h 0); [rewrite H0; apply Qle_refl |].
    apply Hmono. apply Qle_shift_div_l; [exact Hd |].
    rewrite Qmult_0_l. rewrite (Zle_Qle 0 e) in He. exact He. }
  apply Q.min_glb; [| discriminate].
  apply Qle_trans with (round h 0); [rewrite H0; apply Qle_refl |].
  apply Hmono. apply Qmult_le_0_compat; [exact Hq | discriminate].
Qed.

Lemma progress_at_start (h : host) (d : Q) :
  0 < d ->
  (forall a b, a <= b -> round h a <= round h b) ->
  round h 0 == 0 ->
  progress_at h d 0 == 0.
Proof.
  intros Hd Hmono H0. apply Qle_antisym.
  - unfold progress_at. eapply Qle_trans; [apply Q.le_min_l |].
    apply Qle_trans with (round h 0); [| rewrite H0; apply Qle_refl].
    apply Hmono.
    assert (Hz : round h (inject_Z 0 / d) == 0).
    { eapply Qeq_trans; [apply (round_compat h _ 0 Hmono) | exact H0].
      unfold Qdiv. apply Qmult_0_l. }
    rewrite Hz. discriminate.
  - apply progress_at_nonnegative; auto. reflexivity.
Qed.

Lemma progress_at_end (h : host) (d : Q) (e : Z) :
  0 < d ->
  (forall a b, a <= b -> round h a <= round h b) ->
  round h 1 == 1 ->
  round h 100 == 100 ->
  d <= inject_Z e ->
  progress_at h d e == 100.
Proof.
  intros Hd Hmono H1 H100 He. unfold progress_at.
  apply Q.min_r.
  apply Qle_trans with (round h 100); [rewrite H100; apply Qle_refl |].
  apply Hmono.
  apply Qle_trans with (1 * 100); [discriminate |].
  apply Qmult_le_compat_r; [| discriminate].
  apply Qle_trans with (round h 1); [rewrite H1; apply Qle_refl |].
  apply Hmono.
  apply Qle_shift_div_l; [exact Hd |].
  rewrite Qmult_1_l. exact He.
Qed.

(** X14. The loading sequence runs from 0 to 100 and ends.  With a positive
    loading duration and a rounding that is monotone and leaves 0, 1 and 100
    as they are, the progress sampled at the start time is 0, a sample taken
    at or after the start time is never negative, and a run of
    [updateProgress] that reads the clock at or after start time plus
    [loadingDuration] samples 100, writes 100 to the bar and the label, and
    schedules the transition to the selection screen 500 ms later instead of
    another run of itself. *)
Theorem loading_runs_to_completion (w : world) (startTime : Z) :
  0 < loadingDuration w ->
  (forall a b, a <= b -> round (engine w) a <= round (engine w) b) ->
  round (engine w) 0 == 0 ->
  round (engine w) 1 == 1 ->
  round (engine w) 100 == 100 ->
  let progress := progress_at (engine w) (loadingDuration w) in
  let w' := updateProgress startTime w in
  progress 0%Z == 0 /\
  (forall e : Z, (0 <= e)%Z -> 0 <= progress e) /\
  (forall e : Z, loadingDuration w <= inject_Z e -> progress e == 100) /\
  (loadingDuration w <= inject_Z (clock w (reads w) - startTime) ->
   timers w' = (timers w ++ [(500%Z, cb_transitionToAuth)])%list /\
   loadingPercentage (doc w') = (fun _ => 100%Z) <$> loadingPercentage (doc w) /\
   exists p, progressBar (doc w') = (fun _ => p) <$> progressBar (doc w) /\ p == 100).
Proof.
  intros Hd Hmono H0 H1 H100 progress w'.
  repeat apply conj.
  - apply progress_at_start; assumption.
  - intros e He. apply progress_at_nonnegative; assumption.
  - intros e He. apply progress_at_end; assumption.
  - intros He.
    pose proof (progress_at_end _ _ _ Hd Hmono H1 H100 He) as Hp.
    destruct (updateProgress_cases startTime w) as [Hdoc [[Hlt _] | [_ Ht]]].
    + exfalso. rewrite Hp in Hlt. discriminate Hlt.
    + fold w' in Hdoc, Ht. split; [exact Ht |]. rewrite Hdoc.
      cbn [loadingPercentage progressBar set_progress]. split.
      * rewrite (Qfloor_comp _ 100 Hp). reflexivity.
      * eexists. split; [reflexivity | exact Hp].
Qed.

Lemma loading_runs_to_completion_witness :
  let w := set_reads 1 (Persistent.construct None (Sample.browser None Sample.no_wallets 2000)) in
  timers (updateProgress 0 w) = [(500%Z, cb_transitionToAuth)] /\
  loadingPercentage (doc (updateProgress 0 w)) = Some 100%Z.
Proof.
  intros w.
  destruct (loading_runs_to_completion w 0) as (_ & _ & _ & Hend).
  - vm_compute. reflexivity.
  - intros a b Hab. exact Hab.
  - reflexivity.
  - reflexivity.
  - reflexivity.
  - destruct Hend as (Ht & Hl & _).
    + vm_compute. discriminate.
    + split; [exact Ht | exact Hl].
Defined.

Local Close Scope Q_scope.

(** ** From one screen to the next *)

(** X15. The selection screen is shown after loading.  On a page with the
    loading and selection screens, when the transition scheduled by the
    loading sequence fires, the controller with session persistence marks
    the loading screen [fade-out] and schedules one callback 1000 ms later;
    when that fires the loading screen has [display: none] and the selection
    screen has [display: flex] and no [hidden] class, whatever its inline
    display was, while main content and session fields are untouched.  The
    controller without persistence removes the [hidden] class too but leaves
    the selection screen's inline display as it was. *)
Theorem selection_screen_is_shown (w : world) :
  is_Some (loadingScreen (doc w)) ->
  is_Some (authScreen (doc w)) ->
  let w1 := Persistent.fire cb_transitionToAuth w in
  let w2 := Persistent.fire cb_showAuthScreen w1 in
  let v2 := Legacy.fire cb_showAuthScreen (Legacy.fire cb_transitionToAuth w) in
  timers w1 = (timers w ++ [(1000, cb_showAuthScreen)])%list /\
  has_class "fade-out" (loadingScreen (doc w1)) /\
  timers w2 = timers w1 /\
  display <$> loadingScreen (doc w2) = Some "none" /\
  display <$> authScreen (doc w2) = Some "flex" /\
  lacks_class "hidden" (authScreen (doc w2)) /\
  mainContent (doc w2) = mainContent (doc w) /\
  isAuthenticated w2 = isAuthenticated w /\
  display <$> loadingScreen (doc v2) = Some "none" /\
  lacks_class "hidden" (authScreen (doc v2)) /\
  display <$> authScreen (doc v2) = display <$> authScreen (doc w).
Proof.
  intros [l Hl] [a Ha] w1 w2 v2. subst w1 w2 v2.
  open_operations. rewrite Hl, Ha. cbn. rewrite ?Hl, ?Ha. cbn.
  repeat apply conj; try reflexivity.
  - eexists. split; [reflexivity |]. apply classList_add_has.
  - eexists. split; [reflexivity |]. apply classList_remove_lacks.
  - eexists. split; [reflexivity |]. apply classList_remove_lacks.
Qed.

Lemma selection_screen_is_shown_witness :
  let w := Persistent.construct None Tour.fresh_page in
  display <$> authScreen
                (doc (Persistent.fire cb_showAuthScreen
                        (Persistent.fire cb_transitionToAuth w))) = Some "flex".
Proof.
  intros w.
  destruct (selection_screen_is_shown w) as (_ & _ & _ & _ & H & _).
  - vm_compute. eexists; reflexivity.
  - vm_compute. eexists; reflexivity.
  - exact H.
Defined.

Lemma legacy_step_authScreen_display (a : action) (w : world) :
  display <$> authScreen (doc w) = Some "none" ->
  display <$> authScreen (doc (legacy_step a w)) = Some "none".
Proof.
  intros Hnone. destruct (authScreen (doc w)) as [r |] eqn:Ha; [| discriminate Hnone].
  cbn in Hnone. injection Hnone as Hnone.
  destruct a as [walletType | | cb | win']; cbn.
  - unfold Legacy.connectWallet.
    destruct (cards (doc w) !! walletType); [| rewrite Ha; cbn; congruence].
    cbn [win set_doc]. destruct (connect walletType (win w));
      cbn; rewrite Ha; cbn; congruence.
  - open_operations. rewrite Ha. split_branches; rewrite ?Ha; cbn; congruence.
  - destruct cb; open_operations; rewrite ?Ha; split_branches; rewrite ?Ha; cbn;
      congruence.
  - rewrite Ha. cbn. congruence.
Qed.

(** X16. In the controller without persistence the selection screen cannot
    come back after a sign-in.  Once the callback that reveals the main
    content has fired, the selection screen has the inline style
    [display: none], and no later click, [forceReauth] call, firing timer or
    provider change ever writes another value: after [forceReauth] and a
    completed loading sequence the selection screen still is not
    displayed. *)
Theorem legacy_selection_screen_stays_undisplayed (w : world) (acts : list action) :
  is_Some (authScreen (doc w)) ->
  display <$> authScreen (doc (run legacy_step acts (Legacy.fire cb_showMainContent w)))
  = Some "none".
Proof.
  intros [a Ha].
  apply (run_invariant legacy_step
           (fun w => display <$> authScreen (doc w) = Some "none")).
  - apply legacy_step_authScreen_display.
  - open_operations. rewrite Ha. reflexivity.
Qed.

Lemma legacy_selection_screen_stays_undisplayed_witness :
  display <$> authScreen
    (doc (run legacy_step
            [ForceReauth; Timer cb_transitionToAuth; Timer cb_showAuthScreen]
            (Legacy.fire cb_showMainContent Sample.legacy_signed_in)))
  = Some "none".
Proof.
  apply legacy_selection_screen_stays_undisplayed. vm_compute. eexists; reflexivity.
Defined.

(** X17. A sign-in reveals the main content.  When the attempt from a wallet
    card succeeds on a page with the selection screen and the main content,
    the controller with session persistence dispatches one connected event
    with the result, leaves the card labelled CONNECTED and still disabled,
    and schedules the transition 1500 ms later; when that and the callback
    it schedules 1000 ms later have fired, the selection screen has
    [display: none] and the classes [fade-out] and [hidden], and the main
    content has an empty inline display and no [hidden] class.  The loading
    screen is not touched. *)
Theorem sign_in_reveals_main_content
  (walletType : string) (w : world) (button : card) (result : wallet) :
  cards (doc w) !! walletType = Some button ->
  connect walletType (win w) = Fulfilled result ->
  is_Some (authScreen (doc w)) ->
  is_Some (mainContent (doc w)) ->
  let w1 := Persistent.connectWallet walletType w in
  let w2 := Persistent.fire cb_transitionToMainContent w1 in
  let w3 := Persistent.fire cb_showMainContent w2 in
  events w3 = (events w ++ [walletConnected result])%list /\
  timers w3 = (timers w ++ [(1500, cb_transitionToMainContent);
                            (1000, cb_showMainContent)])%list /\
  (exists c, cards (doc w3) !! walletType = Some c /\
             walletName c = "CONNECTED" /\ connectText c = "SUCCESS" /\
             disabled c = true /\ pointerEvents c = "none") /\
  display <$> authScreen (doc w3) = Some "none" /\
  has_class "hidden" (authScreen (doc w3)) /\
  has_class "fade-out" (authScreen (doc w3)) /\
  display <$> mainContent (doc w3) = Some "" /\
  lacks_class "hidden" (mainContent (doc w3)) /\
  loadingScreen (doc w3) = loadingScreen (doc w) /\
  isAuthenticated w3 = true /\
  connectedWallet w3 = Some result.
Proof.
  intros Hcard Hconnect [a Ha] [m Hm] w1 w2 w3. subst w1 w2 w3.
  unfold Persistent.connectWallet. rewrite Hcard. cbn [win set_doc]. rewrite Hconnect.
  open_operations. rewrite Ha, Hm. cbn. rewrite ?Ha, ?Hm. cbn.
  repeat apply conj; try reflexivity.
  - rewrite <- app_assoc. reflexivity.
  - eexists. split; [rewrite !lookup_alter_eq, Hcard; reflexivity |].
    repeat split.
  - eexists. split; [reflexivity |]. apply classList_add_has.
  - eexists. split; [reflexivity |].
    apply classList_add_keeps. apply classList_add_has.
  - eexists. split; [reflexivity |]. apply classList_remove_lacks.
Qed.

Lemma sign_in_reveals_main_content_witness :
  let w := Persistent.construct None Tour.fresh_page in
  let w3 := Persistent.fire cb_showMainContent
              (Persistent.fire cb_transitionToMainContent
                 (Persistent.connectWallet "phantom" w)) in
  display <$> authScreen (doc w3) = Some "none" /\
  lacks_class "hidden" (mainContent (doc w3)).
Proof.
  intros w w3.
  destruct (sign_in_reveals_main_content "phantom" w (Sample.idle "PHANTOM")
              {| type := "phantom"; publicKey := "9xQe"; address := "9xQe" |})
    as (_ & _ & _ & Hd & _ & _ & _ & Hm & _).
  - vm_compute. reflexivity.
  - vm_compute. reflexivity.
  - vm_compute. eexists; reflexivity.
  - vm_compute. eexists; reflexivity.
  - split; [exact Hd | exact Hm].
Defined.

(** ** Cards *)

Lemma persistent_step_card (walletType : string) (a : action) (w : world) :
  leaves_card walletType a ->
  cards (doc (persistent_step a w)) !! walletType = cards (doc w) !! walletType.
Proof.
  intros Hleave. destruct a as [walletType' | | cb | win']; cbn in *.
  - unfold Persistent.connectWallet.
    destruct (cards (doc w) !! walletType'); [| reflexivity].
    cbn [win set_doc]. destruct (connect walletType' (win w)); cbn;
      rewrite ?lookup_alter_ne by exact Hleave; reflexivity.
  - open_operations. split_branches; reflexivity.
  - destruct cb; open_operations; split_branches; try reflexivity.
    apply lookup_alter_ne. exact Hleave.
  - reflexivity.
Qed.

Lemma legacy_step_card (walletType : string) (a : action) (w : world) :
  leaves_card walletType a ->
  cards (doc (legacy_step a w)) !! walletType = cards (doc w) !! walletType.
Proof.
  intros Hleave. destruct a as [walletType' | | cb | win']; cbn in *.
  - unfold Legacy.connectWallet.
    destruct (cards (doc w) !! walletType'); [| reflexivity].
    cbn [win set_doc]. destruct (connect walletType' (win w)); cbn;
      rewrite ?lookup_alter_ne by exact Hleave; reflexivity.
  - open_operations. split_branches; reflexivity.
  - destruct cb; open_operations; split_branches; try reflexivity.
    apply lookup_alter_ne. exact Hleave.
  - reflexivity.
Qed.

Lemma run_card (step : action -> world -> world) (walletType : string) :
  (forall a w, leaves_card walletType a ->
               cards (doc (step a w)) !! walletType = cards (doc w) !! walletType) ->
  forall acts w, Forall (leaves_card walletType) acts ->
                 cards (doc (run step acts w)) !! walletType = cards (doc w) !! walletType.
Proof.
  intros Hstep acts. unfold run.
  induction acts as [| a acts IH]; intros w Hall; cbn; [reflexivity |].
  apply Forall_cons in Hall. destruct Hall as [Ha Hall].
  rewrite IH by exact Hall. apply Hstep. exact Ha.
Qed.

(** X18. A card changes only through its own click and its own reset timer.
    Over any sequence of steps that contains neither a click on the card of a
    wallet type nor the reset timer of that card, both controllers leave that
    card exactly as it was: an attempt in flight or failing on one card, the
    screen transitions, the progress loop and [forceReauth] never disable,
    relabel or restyle another card. *)
Theorem card_changes_only_by_its_own_steps
  (walletType : string) (acts : list action) (w : world) :
  Forall (leaves_card walletType) acts ->
  cards (doc (run persistent_step acts w)) !! walletType = cards (doc w) !! walletType /\
  cards (doc (run legacy_step acts w)) !! walletType = cards (doc w) !! walletType.
Proof.
  intros Hall. split.
  - apply run_card; [apply persistent_step_card | exact Hall].
  - apply run_card; [apply legacy_step_card | exact Hall].
Qed.

Lemma card_changes_only_by_its_own_steps_witness :
  let w := Persistent.init (Persistent.construct None Tour.fresh_page) in
  cards (doc (run persistent_step
                [Click "phantom"; ForceReauth; Timer cb_transitionToAuth] w)) !! "metamask"
  = Some (Sample.idle "METAMASK").
Proof.
  intros w.
  destruct (card_changes_only_by_its_own_steps "metamask"
              [Click "phantom"; ForceReauth; Timer cb_transitionToAuth] w) as [H _].
  - repeat constructor. cbn. discriminate.
  - rewrite H. vm_compute. reflexivity.
Defined.

(** X19. The card of a successful sign-in stays disabled.  After a
    successful attempt the card is labelled CONNECTED, disabled and closed to
    pointer events, and nothing short of a new click on that very card or its
    reset timer changes that, in either controller: after [forceReauth] and
    a new loading sequence the selection screen comes back with that card
    still disabled. *)
Theorem signed_in_card_stays_disabled
  (walletType : string) (w : world) (button : card) (result : wallet)
  (acts : list action) :
  cards (doc w) !! walletType = Some button ->
  connect walletType (win w) = Fulfilled result ->
  Forall (leaves_card walletType) acts ->
  forall w', w' = run persistent_step acts (Persistent.connectWallet walletType w) \/
             w' = run legacy_step acts (Legacy.connectWallet walletType w) ->
  exists c, cards (doc w') !! walletType = Some c /\
            walletName c = "CONNECTED" /\ disabled c = true /\ pointerEvents c = "none".
Proof.
  intros Hcard Hconnect Hall w' [-> | ->].
  - rewrite (run_card persistent_step walletType (persistent_step_card walletType))
      by exact Hall.
    unfold Persistent.connectWallet. rewrite Hcard. cbn [win set_doc]. rewrite Hconnect.
    cbn. rewrite !lookup_alter_eq, Hcard. eexists. split; [reflexivity |]. repeat split.
  - rewrite (run_card legacy_step walletType (legacy_step_card walletType))
      by exact Hall.
    unfold Legacy.connectWallet. rewrite Hcard. cbn [win set_doc]. rewrite Hconnect.
    cbn. rewrite !lookup_alter_eq, Hcard. eexists. split; [reflexivity |]. repeat split.
Qed.

Lemma signed_in_card_stays_disabled_witness :
  let w := Persistent.init (Persistent.construct None Tour.fresh_page) in
  let w' := run persistent_step
              [Timer cb_transitionToMainContent; Timer cb_showMainContent; ForceReauth;
               Timer cb_transitionToAuth; Timer cb_showAuthScreen]
              (Persistent.connectWallet "phantom" w) in
  exists c, cards (doc w') !! "phantom" = Some c /\
            walletName c = "CONNECTED" /\ disabled c = true /\ pointerEvents c = "none".
Proof.
  intros w w'.
  apply (signed_in_card_stays_disabled "phantom" w (Sample.idle "PHANTOM")
           {| type := "phantom"; publicKey := "9xQe"; address := "9xQe" |}
           [Timer cb_transitionToMainContent; Timer cb_showMainContent; ForceReauth;
            Timer cb_transitionToAuth; Timer cb_showAuthScreen]).
  - vm_compute. reflexivity.
  - vm_compute. reflexivity.
  - repeat constructor.
  - left. reflexivity.
Defined.

(** ** Startup without a usable record *)

Lemma verifyWalletConnection_unknown (walletType : jsval) (w : world) :
  unknown_walletType walletType ->
  Persistent.verifyWalletConnection walletType w = (Fulfilled false, w).
Proof.
  intros Hunknown. unfold Persistent.verifyWalletConnection.
  destruct walletType as [| | | | name | |]; try reflexivity.
  destruct (String.eqb_spec name "phantom") as [-> | _];
    [exfalso; apply (Hunknown phantom); reflexivity |].
  destruct (String.eqb_spec name "metamask") as [-> | _];
    [exfalso; apply (Hunknown metamask); reflexivity |].
  destruct (String.eqb_spec name "solflare") as [-> | _];
    [exfalso; apply (Hunknown solflare_kind); reflexivity |].
  reflexivity.
Qed.

(** X20. Startup keeps what it cannot use.  When nothing is stored under the
    session key, or the empty string is, [checkExistingConnection] resolves
    to [false] without reading the clock or calling [JSON.parse]; when an
    unexpired record names a wallet type that is none of the three (or none
    at all), it resolves to [false] without consulting a provider.  In all
    three cases local storage is left exactly as it was, the empty string
    and the unusable record included, and [init] starts the loading sequence
    with the session fields unchanged. *)
Theorem startup_keeps_what_it_cannot_use (w : world) :
  stored_record w = None \/
  stored_record w = Some "" \/
  (exists raw data ts walletType,
      stored_record w = Some raw /\ String.eqb raw "" = false /\
      JSON_parse (engine w) raw = Some data /\
      get_prop data "timestamp" = Some (JNum (Num ts)) /\
      clock w (reads w) - ts <= 86400000 /\
      get_prop data "walletType" = Some walletType /\
      unknown_walletType walletType) ->
  fst (Persistent.checkExistingConnection w) = Fulfilled false /\
  (stored_record w = None \/ stored_record w = Some "" ->
   snd (Persistent.checkExistingConnection w) = w) /\
  localStorage (snd (Persistent.checkExistingConnection w)) = localStorage w /\
  Persistent.init w = startLoadingSequence (snd (Persistent.checkExistingConnection w)) /\
  localStorage (Persistent.init w) = localStorage w /\
  isAuthenticated (Persistent.init w) = isAuthenticated w /\
  connectedWallet (Persistent.init w) = connectedWallet w.
Proof.
  intros Hcase.
  assert (Hc : exists w1,
             Persistent.checkExistingConnection w = (Fulfilled false, w1) /\
             (w1 = w \/ w1 = snd (Date_now w)) /\
             (stored_record w = None \/ stored_record w = Some "" -> w1 = w)).
  { unfold Persistent.checkExistingConnection, stored_record in *.
    destruct Hcase as [Hnone | [Hempty | (raw & data & ts & ty & Hraw & Hne & Hp & Hts & Hfresh & Hty & Hun)]].
    - rewrite Hnone. exists w. auto.
    - rewrite Hempty. cbn. exists w. auto.
    - rewrite Hraw, Hne, Hp. unfold Date_now. rewrite Hts, Hty.
      cbn [ToNumber js_sub js_gt snd].
      change (24 * 60 * 60 * 1000) with 86400000.
      destruct (Z.gtb_spec (clock w (reads w) - ts) 86400000) as [Hold | _]; [lia |].
      rewrite verifyWalletConnection_unknown by exact Hun.
      eexists. split; [reflexivity |]. split; [right; reflexivity |].
      intros [H | H]; [discriminate H |].
      injection H as ->. discriminate Hne. }
  destruct Hc as (w1 & Hc & Hw1 & Hsame).
  unfold Persistent.init. rewrite Hc. cbn [fst snd].
  destruct (startLoadingSequence_frame w1) as (Hs & _ & Ha & Hcw & _).
  rewrite Hs, Ha, Hcw.
  repeat apply conj; try reflexivity; try exact Hsame;
    destruct Hw1 as [-> | ->]; reflexivity.
Qed.

Lemma startup_keeps_what_it_cannot_use_witness :
  let w := Sample.startup (Some "") Sample.trusting_phantom 2000 in
  Persistent.init w = startLoadingSequence w /\
  stored_record (Persistent.init w) = Some "".
Proof.
  intros w.
  destruct (startup_keeps_what_it_cannot_use w) as (_ & Hsame & _ & Hi & Hs & _).
  - right. left. vm_compute. reflexivity.
  - split.
    + rewrite Hi. rewrite Hsame; [reflexivity |]. right. vm_compute. reflexivity.
    + unfold stored_record. rewrite Hs. vm_compute. reflexivity.
Defined.
